(** * Phishing-detection service: the request-to-verdict pipeline

    A shallow embedding of [ML/main.py] (the [/analyze] and [/health]
    endpoints with their helpers) and of [ai/ml-inference/main.py] (the
    alternate [/predict] endpoint), and the properties of the
    specification proved or refuted on it. *)

From Stdlib Require Import List String Ascii Bool Arith NArith ZArith QArith Qabs Lia.
From Stdlib Require Import SpecFloat DecimalPos.
From Stdlib Require Import Permutation.
Import ListNotations.
Local Close Scope Q_scope.

Set Implicit Arguments.

(** ** Python strings

    A Python [str] is a sequence of Unicode code points; [len] and
    slicing count code points.  Literals of the source that are pure
    ASCII are written as Rocq strings and converted with [lit]. *)

Module PyStr.

Definition char := N.
Definition str := list char.

Fixpoint lit (s : string) : str :=
  match s with
  | EmptyString => []
  | String a rest => N_of_ascii a :: lit rest
  end.

(** [bool(s)] : a string is truthy when it is not empty. *)
Definition truthy (s : str) : bool :=
  match s with
  | [] => false
  | _ :: _ => true
  end.

(** [bool(o)] for an [Optional[str]] : [None] is falsy. *)
Definition truthy_opt (o : option str) : bool :=
  match o with
  | None => false
  | Some s => truthy s
  end.

(** [len(s)] *)
Definition len (s : str) : nat := List.length s.

(** [s[:n]] for a non-negative [n]. *)
Definition slice_to (n : nat) (s : str) : str := firstn n s.

(** [sep.join(parts)] *)
Fixpoint join (sep : str) (parts : list str) : str :=
  match parts with
  | [] => []
  | [p] => p
  | p :: rest => p ++ sep ++ join sep rest
  end.

(** [s.startswith(p)] *)
Fixpoint starts_with (p s : str) : bool :=
  match p, s with
  | [], _ => true
  | _ :: _, [] => false
  | a :: p', b :: s' => N.eqb a b && starts_with p' s'
  end.

(** [p in s] : [p] occurs as a contiguous run of [s]. *)
Fixpoint contains (p s : str) : bool :=
  starts_with p s ||
  match s with
  | [] => false
  | _ :: s' => contains p s'
  end.

End PyStr.
Import PyStr.

(** ** Python floats

    A Python [float] is an IEEE 754 binary64 number, modelled by
    [spec_float] with precision 53 and maximal exponent 1024. *)

Module PyFloat.

Definition float := spec_float.

Definition prec : Z := 53.
Definition emax : Z := 1024.

(** [a > b] ; false as soon as one side is a NaN. *)
Definition gt (a b : float) : bool := SFltb b a.
(** [a <= b] *)
Definition le (a b : float) : bool := SFleb a b.
(** [a * b], rounded to nearest even. *)
Definition mul (a b : float) : float := SFmul prec emax a b.

Definition is_nan (a : float) : bool :=
  match a with
  | S754_nan => true
  | _ => false
  end.

Definition is_finite (a : float) : bool :=
  match a with
  | S754_zero _ | S754_finite _ _ _ => true
  | _ => false
  end.

(** The literals of the source, as the nearest binary64 numbers. *)
Definition f0_8 : float := S754_finite false 7205759403792794 (-53).
Definition f0_6 : float := S754_finite false 5404319552844595 (-53).
Definition f0_5 : float := S754_finite false 4503599627370496 (-53).
Definition f100 : float := S754_finite false 7036874417766400 (-46).

(** The exact rational value of a finite float (0 for the others). *)
Definition value (a : float) : Q :=
  match a with
  | S754_finite s m e =>
      let mag : Q :=
        match e with
        | Z0 => inject_Z (Zpos m)
        | Zpos p => inject_Z (Zpos m * 2 ^ Zpos p)
        | Zneg p => Qmake (Zpos m) (2 ^ p)
        end in
      if s then Qopp mag else mag
  | _ => 0%Q
  end.

(** Decimal digits of a natural number, most significant first. *)
Fixpoint uint_chars (d : Decimal.uint) : str :=
  match d with
  | Decimal.Nil => []
  | Decimal.D0 d' => 48%N :: uint_chars d'
  | Decimal.D1 d' => 49%N :: uint_chars d'
  | Decimal.D2 d' => 50%N :: uint_chars d'
  | Decimal.D3 d' => 51%N :: uint_chars d'
  | Decimal.D4 d' => 52%N :: uint_chars d'
  | Decimal.D5 d' => 53%N :: uint_chars d'
  | Decimal.D6 d' => 54%N :: uint_chars d'
  | Decimal.D7 d' => 55%N :: uint_chars d'
  | Decimal.D8 d' => 56%N :: uint_chars d'
  | Decimal.D9 d' => 57%N :: uint_chars d'
  end.

Definition digits (n : N) : str := uint_chars (N.to_uint n).

(** The number of tenths nearest to [m * 2^e], ties to even: the
    correctly rounded conversion that the ['f'] presentation type with
    precision 1 performs on the exact binary value. *)
Definition tenths (m : positive) (e : Z) : N :=
  match e with
  | Z0 => 10 * Npos m
  | Zpos p => 10 * Npos m * 2 ^ Npos p
  | Zneg p =>
      let d := (2 ^ Npos p)%N in
      let n := (10 * Npos m)%N in
      let q := (n / d)%N in
      let r := (n mod d)%N in
      match (2 * r ?= d)%N with
      | Lt => q
      | Gt => (q + 1)%N
      | Eq => if N.even q then q else (q + 1)%N
      end
  end.

Definition sign_chars (s : bool) : str := if s then lit "-" else [].

(** [format(x, ".1f")] *)
Definition format_f1 (x : float) : str :=
  match x with
  | S754_nan => lit "nan"
  | S754_infinity s => sign_chars s ++ lit "inf"
  | S754_zero s => sign_chars s ++ lit "0.0"
  | S754_finite s m e =>
      let t := tenths m e in
      sign_chars s ++ digits (t / 10) ++ lit "." ++ digits (t mod 10)
  end.

(** [format(x, ".1%")] : the value is multiplied by 100 as a float,
    shown in fixed notation with one decimal and followed by a percent
    sign. *)
Definition format_pct1 (x : float) : str :=
  format_f1 (mul x f100) ++ lit "%".

End PyFloat.
Import PyFloat.

(** ** Exceptions, effects and tensors *)

Module Py.

(** The exceptions the two services can meet; all are subclasses of
    [Exception].  Each built-in exception carries its message. *)
Inductive exn :=
| HTTPException (status_code : Z) (detail : str)
| TypeError (msg : str)
| IndexError (msg : str)
| AttributeError (msg : str)
| RuntimeError (msg : str)
| OSError (msg : str).

(** A computation over the process-wide state [S] that returns a value
    or raises; the state written before a [raise] is kept, as Python
    keeps the assignments made before an exception. *)
Definition M (S A : Type) : Type := S -> (exn + A) * S.

Definition ret {S A} (a : A) : M S A := fun s => (inr a, s).

Definition bind {S A B} (c : M S A) (k : A -> M S B) : M S B :=
  fun s =>
    match c s with
    | (inl e, s') => (inl e, s')
    | (inr a, s') => k a s'
    end.

Definition raise {S A} (e : exn) : M S A := fun s => (inl e, s).

(** [try: c except Exception as e: h e] *)
Definition try_except {S A} (c : M S A) (h : exn -> M S A) : M S A :=
  fun s =>
    match c s with
    | (inl e, s') => h e s'
    | (inr a, s') => (inr a, s')
    end.

Definition get {S} : M S S := fun s => (inr s, s).
Definition put {S} (s : S) : M S unit := fun _ => (inr tt, s).

(** The outcome of a call into a library. *)
Definition lift {S A} (r : exn + A) : M S A := fun s => (r, s).

Declare Scope py_scope.
Delimit Scope py_scope with py.
Notation "x <- c ;; k" := (bind c (fun x => k))
  (at level 61, c at next level, right associativity) : py_scope.
Notation "c ;; k" := (bind c (fun _ => k))
  (at level 61, right associativity) : py_scope.

(** A tensor of shape [batch, classes] and the encoding a tokenizer
    returns: a dict from names ([input_ids], [attention_mask], ...) to
    integer tensors.  Tensor entries are held as the Python floats that
    [.item()] yields. *)
Definition Tensor := list (list float).
Definition Encoding := list (string * list (list Z)).

Inductive Device := cuda | cpu.

(** [str(device)] *)
Definition str_of_device (d : Device) : str :=
  match d with
  | cuda => lit "cuda"
  | cpu => lit "cpu"
  end.

(** A loaded tokenizer: calling it on a text (with truncation and
    padding) gives an encoding or raises. *)
Record Tokenizer := { tokenizer_call : str -> exn + Encoding }.

(** A loaded sequence-classification model: the logits of a call on an
    encoding, and [model.to(device)]. *)
Record Model := {
  model_call : Encoding -> exn + Tensor;
  model_to : Device -> exn + unit
}.

(** What the services take from their libraries. *)
Record Libs := {
  (** [torch.cuda.is_available()] *)
  cuda_is_available : bool;
  (** [AutoTokenizer.from_pretrained(name)] *)
  tokenizer_from_pretrained : str -> exn + Tokenizer;
  (** [AutoModelForSequenceClassification.from_pretrained(name)] *)
  model_from_pretrained : str -> exn + Model;
  (** [torch.softmax] along the last dimension, on one row *)
  softmax : list float -> list float;
  (** [str(e)] of an [HTTPException] with the given status and detail *)
  str_HTTPException : Z -> str -> str
}.

(** [str(e)] *)
Definition str_of_exn (lib : Libs) (e : exn) : str :=
  match e with
  | HTTPException c d => str_HTTPException lib c d
  | TypeError m | IndexError m | AttributeError m | RuntimeError m | OSError m => m
  end.

(** [o is None] *)
Definition is_None {A} (o : option A) : bool :=
  match o with
  | None => true
  | Some _ => false
  end.

(** [t[i]] on a tensor, for a non-negative index. *)
Definition index {A} (l : list A) (i : nat) : exn + A :=
  match nth_error l i with
  | Some a => inr a
  | None =>
      inl (IndexError
             (lit "index " ++ digits (N.of_nat i)
                ++ lit " is out of bounds for dimension 0 with size "
                ++ digits (N.of_nat (List.length l))))
  end.

(** The comparison of [torch.argmax]: a later entry [x] replaces the
    best one so far when it is greater, or when it is a NaN and the best
    is not; ties keep the lower index. *)
Definition beats (x best : float) : bool :=
  (is_nan x && negb (is_nan best)) || gt x best.

Fixpoint argmax_from (best_i : nat) (best : float) (i : nat) (l : list float) : nat :=
  match l with
  | [] => best_i
  | x :: l' =>
      if beats x best then argmax_from i x (S i) l'
      else argmax_from best_i best (S i) l'
  end.

(** [torch.argmax] of one row. *)
Definition argmax_row (row : list float) : exn + nat :=
  match row with
  | [] => inl (IndexError (lit "argmax(): Expected reduction dim to have non-zero size"))
  | x :: l => inr (argmax_from 0 x 1 l)
  end.

(** [torch.argmax(t, dim=-1)] : one index per row. *)
Fixpoint argmax (t : Tensor) : exn + list nat :=
  match t with
  | [] => inr []
  | row :: t' =>
      match argmax_row row with
      | inl e => inl e
      | inr i =>
          match argmax t' with
          | inl e => inl e
          | inr rest => inr (i :: rest)
          end
      end
  end.

(** [t.item()] : the only element of a one-element tensor. *)
Definition item {A} (t : list A) : exn + A :=
  match t with
  | [a] => inr a
  | _ =>
      inl (RuntimeError
             (lit "a Tensor with " ++ digits (N.of_nat (List.length t))
                ++ lit " elements cannot be converted to Scalar"))
  end.

End Py.
Import Py.
Local Open Scope py_scope.

(** ** The canonical service ([ML/main.py]) *)

Module MLService.

(** [class PhishingAnalysisRequest(BaseModel)] *)
Record PhishingAnalysisRequest := {
  url : str;
  text : option str;
  title : option str
}.

(** The [details] dict of a response. *)
Record Details := {
  details_model_used : str;
  details_analysis_text : str;
  details_device : str
}.

(** [class PhishingAnalysisResponse(BaseModel)] *)
Record PhishingAnalysisResponse := {
  is_phishing : bool;
  confidence : float;
  risk_score : float;
  message : str;
  details : option Details
}.

(** The dict that [/health] returns, with keys [status], [service],
    [model_loaded] and [device]. *)
Record Health := {
  health_status : str;
  health_service : str;
  health_model_loaded : bool;
  health_device : str
}.

(** The global variables [model], [tokenizer] and [device]. *)
Record Globals := {
  model : option Model;
  tokenizer : option Tokenizer;
  device : option Device
}.

(** The module is imported: all three are [None]. *)
Definition initial : Globals :=
  {| model := None; tokenizer := None; device := None |}.

(** Request validation, as the field declarations [url: str],
    [text: Optional[str] = None], [title: Optional[str] = None] make the
    framework perform it on a body whose fields, when given, are
    strings: only the presence of [url] is required. *)
Definition validate_request (body_url body_text body_title : option str)
  : option PhishingAnalysisRequest :=
  match body_url with
  | None => None
  | Some u => Some {| url := u; text := body_text; title := body_title |}
  end.

(** [_prepare_text_for_analysis] *)
Definition _prepare_text_for_analysis (request : PhishingAnalysisRequest) : str :=
  let text_parts : list str := [] in
  let text_parts :=
    if truthy (url request)
    then text_parts ++ [lit "URL: " ++ url request]
    else text_parts in
  let text_parts :=
    match title request with
    | Some t => if truthy t then text_parts ++ [lit "Title: " ++ t] else text_parts
    | None => text_parts
    end in
  let text_parts :=
    match text request with
    | Some x =>
        if truthy x then
          let text_content := if 1000 <? len x then slice_to 1000 x else x in
          text_parts ++ [lit "Content: " ++ text_content]
        else text_parts
    | None => text_parts
    end in
  let text_parts :=
    match text_parts with
    | [] => text_parts ++ [url request]
    | _ :: _ => text_parts
    end in
  join (lit " ") text_parts.

(** The two pictographs that open the messages: a warning sign followed
    by a variation selector (U+26A0 U+FE0F), and a check mark (U+2705). *)
Definition WARNING_SIGN : str := [9888%N; 65039%N].
Definition CHECK_MARK : str := [9989%N].

(** [_generate_response_message] ; its third argument, the URL, is not
    used. *)
Definition _generate_response_message (is_phishing : bool) (confidence : float) (url : str) : str :=
  if is_phishing then
    if gt confidence f0_8 then
      WARNING_SIGN ++ lit " HIGH RISK: This link appears to be a phishing attempt with "
        ++ format_pct1 confidence ++ lit " confidence. Proceed with extreme caution."
    else if gt confidence f0_6 then
      WARNING_SIGN ++ lit " SUSPICIOUS: This link shows signs of phishing with "
        ++ format_pct1 confidence ++ lit " confidence. Consider avoiding this link."
    else
      WARNING_SIGN ++ lit " POTENTIAL RISK: This link has some suspicious characteristics with "
        ++ format_pct1 confidence ++ lit " confidence."
  else
    if gt confidence f0_8 then
      CHECK_MARK ++ lit " SAFE: This link appears legitimate with "
        ++ format_pct1 confidence ++ lit " confidence."
    else if gt confidence f0_6 then
      CHECK_MARK ++ lit " LIKELY SAFE: This link appears to be legitimate with "
        ++ format_pct1 confidence ++ lit " confidence."
    else
      WARNING_SIGN ++ lit " UNCERTAIN: Unable to determine with high confidence. Proceed with caution.".

(** [root], the handler of [GET /] : the value of the key [message] of
    the dict it returns. *)
Definition root : M Globals str :=
  ret (lit "ML Phishing Detection Service is running").

Section Service.

Variable lib : Libs.

Definition model_name : str := lit "ealvaradob/bert-finetuned-phishing".

(** [load_model], the startup hook.  Logging is left out, and so is
    [model.eval()], which returns nothing the service reads. *)
Definition load_model : M Globals unit :=
  try_except
    (g <- get ;;
     let d := if cuda_is_available lib then cuda else cpu in
     put {| model := model g; tokenizer := tokenizer g; device := Some d |} ;;
     tok <- lift (tokenizer_from_pretrained lib model_name) ;;
     g <- get ;;
     put {| model := model g; tokenizer := Some tok; device := device g |} ;;
     m <- lift (model_from_pretrained lib model_name) ;;
     g <- get ;;
     put {| model := Some m; tokenizer := tokenizer g; device := device g |} ;;
     lift (model_to m d) ;;
     ret tt)
    (fun e => raise e).

(** [health_check], the handler of [GET /health]. *)
Definition health_check : M Globals Health :=
  g <- get ;;
  ret {| health_status := lit "healthy";
         health_service := lit "ml-phishing-detector";
         health_model_loaded := negb (is_None (model g));
         health_device := match device g with
                          | Some d => str_of_device d
                          | None => lit "unknown"
                          end |}.

(** Calling a global that may still be [None]. *)
Definition callable {A} (o : option A) : M Globals A :=
  match o with
  | Some a => ret a
  | None => raise (TypeError (lit "'NoneType' object is not callable"))
  end.

(** [_run_inference] ; moving the inputs to the device does not change
    them. *)
Definition _run_inference (text : str) : M Globals (bool * float * float) :=
  try_except
    (g <- get ;;
     tok <- callable (tokenizer g) ;;
     inputs <- lift (tokenizer_call tok text) ;;
     m <- callable (model g) ;;
     logits <- lift (model_call m inputs) ;;
     let probabilities := map (softmax lib) logits in
     predictions <- lift (argmax probabilities) ;;
     prediction <- lift (item predictions) ;;
     row <- lift (index probabilities 0) ;;
     confidence <- lift (index row prediction) ;;
     row <- lift (index probabilities 0) ;;
     risk_score <- lift (index row 1) ;;
     let is_phishing := prediction =? 1 in
     ret (is_phishing, confidence, risk_score))
    (fun e => raise e).

(** [str(device)] of the global, which may be [None]. *)
Definition str_of_global_device (d : option Device) : str :=
  match d with
  | Some d => str_of_device d
  | None => lit "None"
  end.

(** [analyze_phishing], the handler of [POST /analyze]. *)
Definition analyze_phishing (request : PhishingAnalysisRequest)
  : M Globals PhishingAnalysisResponse :=
  try_except
    (g <- get ;;
     (if is_None (model g) || is_None (tokenizer g)
      then raise (HTTPException 503 (lit "Model not loaded"))
      else ret tt) ;;
     let analysis_text := _prepare_text_for_analysis request in
     r <- _run_inference analysis_text ;;
     let '(is_phishing, confidence, risk_score) := r in
     let message := _generate_response_message is_phishing confidence (url request) in
     g <- get ;;
     let details := {| details_model_used := lit "ealvaradob/bert-finetuned-phishing";
                       details_analysis_text := analysis_text;
                       details_device := str_of_global_device (device g) |} in
     ret {| is_phishing := is_phishing;
            confidence := confidence;
            risk_score := risk_score;
            message := message;
            details := Some details |})
    (fun e => raise (HTTPException 500 (lit "Analysis failed: " ++ str_of_exn lib e))).

End Service.

End MLService.

(** ** The alternate service ([ai/ml-inference/main.py]) *)

Module MlInference.

(** [class PredictRequest(BaseModel)] *)
Record PredictRequest := { text : str }.

(** [class PredictResponse(BaseModel)] *)
Record PredictResponse := {
  phishing_probability : float;
  prediction : str
}.

(** The attributes [app.tokenizer] and [app.model]; they do not exist
    before the startup hook has set them. *)
Record App := {
  app_tokenizer : option Tokenizer;
  app_model : option Model
}.

(** What [float(...)] can be handed here: a number, or the bound method
    [item] of a tensor element that nobody called. *)
Inductive pyobj :=
| Number (x : float)
| BoundMethod_item (self : float).

(** [float(o)] *)
Definition builtin_float (o : pyobj) : exn + float :=
  match o with
  | Number x => inr x
  | BoundMethod_item _ =>
      inl (TypeError (lit "float() argument must be a string or a real number, not 'builtin_function_or_method'"))
  end.

(** [t.item], the attribute, not the call [t.item()]. *)
Definition attr_item (t : float) : pyobj := BoundMethod_item t.

(** [app.name] *)
Definition getattr {A} (o : option A) (name : string) : M App A :=
  match o with
  | Some a => ret a
  | None => raise (AttributeError (lit "'FastAPI' object has no attribute '" ++ lit name ++ lit "'"))
  end.

Section Service.

Variable lib : Libs.

(** [load_model], the startup hook. *)
Definition load_model : M App unit :=
  let model_name := lit "ealvaradob/bert-finetuned-phishing" in
  tok <- lift (tokenizer_from_pretrained lib model_name) ;;
  a <- get ;;
  put {| app_tokenizer := Some tok; app_model := app_model a |} ;;
  m <- lift (model_from_pretrained lib model_name) ;;
  a <- get ;;
  put {| app_tokenizer := app_tokenizer a; app_model := Some m |} ;;
  ret tt.

(** [predict], the handler of [POST /predict]. *)
Definition predict (request : PredictRequest) : M App PredictResponse :=
  try_except
    (a <- get ;;
     tok <- getattr (app_tokenizer a) "tokenizer" ;;
     inputs <- lift (tokenizer_call tok (text request)) ;;
     a <- get ;;
     m <- getattr (app_model a) "model" ;;
     logits <- lift (model_call m inputs) ;;
     probabilities <- lift (index (map (softmax lib) logits) 0) ;;
     p1 <- lift (index probabilities 1) ;;
     phishing_prob <- lift (builtin_float (attr_item p1)) ;;
     let prediction :=
       if gt phishing_prob f0_5 then lit "phishing" else lit "not phishing" in
     ret {| phishing_probability := phishing_prob; prediction := prediction |})
    (fun e => raise (HTTPException 500 (str_of_exn lib e))).

End Service.

(** [read_root], the handler of [GET /] : the value of the key
    [message] of the dict it returns. *)
Definition read_root : M App str :=
  ret (lit "Welcome to the Phishing Detection ML API. Use the /predict endpoint to analyze text.").

End MlInference.

(** ** The dataset preparation ([ai/prepare_csv.py]) *)

Module PrepareCsv.

(** [c.isspace()] : the characters that [strip] removes. *)
Definition is_space (c : char) : bool :=
  ((9 <=? c) && (c <=? 13) || (28 <=? c) && (c <=? 32)
   || (c =? 133) || (c =? 160) || (c =? 5760)
   || (8192 <=? c) && (c <=? 8202)
   || (c =? 8232) || (c =? 8233) || (c =? 8239) || (c =? 8287) || (c =? 12288))%N.

(** [s.lstrip()] *)
Fixpoint lstrip (s : str) : str :=
  match s with
  | [] => []
  | c :: s' => if is_space c then lstrip s' else s
  end.

(** [s.rstrip()] *)
Definition rstrip (s : str) : str := rev (lstrip (rev s)).

(** [s.strip()] *)
Definition strip (s : str) : str := rstrip (lstrip s).

Definition str_eq_dec : forall a b : str, {a = b} + {a <> b} :=
  list_eq_dec N.eq_dec.

(** [u in l] *)
Definition mem (u : str) (l : list str) : bool :=
  if in_dec str_eq_dec u l then true else false.

(** [[line.strip() for line in f if line.strip()]], on the lines of the
    feed. *)
Definition phishing_urls (lines : list str) : list str :=
  map strip (filter (fun line => truthy (strip line)) lines).

(** The benign URLs before the overlap is removed; [domains] is the
    first column of the benign file, as strings. *)
Definition benign_candidates (domains : list str) : list str :=
  map (fun d => lit "http://" ++ d ++ lit "/") domains.

(** [list(set(a) - set(b))] : the elements of [a] that are not in [b],
    each once.  Python leaves the order of the result open; it is fixed
    here, and nothing below depends on it. *)
Definition set_difference (a b : list str) : list str :=
  nodup str_eq_dec (filter (fun u => negb (mem u b)) a).

Definition benign_urls (domains phishing : list str) : list str :=
  set_difference (benign_candidates domains) phishing.

(** A row of the frame, with its columns [text] and [label]. *)
Definition Row : Type := str * Z.

(** [pd.DataFrame({'text': urls, 'label': l})] *)
Definition frame (urls : list str) (l : Z) : list Row :=
  map (fun u => (u, l)) urls.

Section Shuffle.

(** [df.sample(frac=1.0, random_state=42)], the shuffle. *)
Variable sample : list Row -> list Row.

(** The frame [df] that is handed to [train_test_split]. *)
Definition dataset (lines domains : list str) : list Row :=
  let phishing := phishing_urls lines in
  let df_pos := frame phishing 1 in
  let benign := benign_urls domains phishing in
  let df_neg := frame benign 0 in
  sample (df_pos ++ df_neg).

End Shuffle.

End PrepareCsv.

(** ** The specification's vocabulary

    Definitions that follow the words of the specification, to be
    compared with the code above. *)

Import MLService.

(** A field is present when the code sees it: a string that is given
    and not empty ([None] and the empty string are both falsy). *)
Definition present (field : option str) : bool := truthy_opt field.

(** "Title: ..." (if present). *)
Definition title_segment (field : option str) : list str :=
  match field with
  | Some t => if truthy t then [lit "Title: " ++ t] else []
  | None => []
  end.

(** "Content: ..." (if present, truncated to the first 1000
    characters). *)
Definition content_segment (field : option str) : list str :=
  match field with
  | Some x => if truthy x then [lit "Content: " ++ firstn 1000 x] else []
  | None => []
  end.

(** The segments that are present, in the fixed order URL, Title,
    Content. *)
Definition segments_spec (request : PhishingAnalysisRequest) : list str :=
  [lit "URL: " ++ url request]
    ++ title_segment (title request) ++ content_segment (text request).

(** The message tiers of the verdict table. *)
Inductive Tier :=
| HIGH_RISK | SUSPICIOUS | POTENTIAL_RISK | SAFE | LIKELY_SAFE | UNCERTAIN.

(** How a message announces its tier: pictograph, name, colon. *)
Definition tier_heading (t : Tier) : str :=
  match t with
  | HIGH_RISK => WARNING_SIGN ++ lit " HIGH RISK: "
  | SUSPICIOUS => WARNING_SIGN ++ lit " SUSPICIOUS: "
  | POTENTIAL_RISK => WARNING_SIGN ++ lit " POTENTIAL RISK: "
  | SAFE => CHECK_MARK ++ lit " SAFE: "
  | LIKELY_SAFE => CHECK_MARK ++ lit " LIKELY SAFE: "
  | UNCERTAIN => WARNING_SIGN ++ lit " UNCERTAIN: "
  end.

Definition all_tiers : list Tier :=
  [HIGH_RISK; SUSPICIOUS; POTENTIAL_RISK; SAFE; LIKELY_SAFE; UNCERTAIN].

(** The tier a message text announces, read off its heading. *)
Definition message_tier (msg : str) : option Tier :=
  find (fun t => starts_with (tier_heading t) msg) all_tiers.

(** The verdict table of the specification, row by row. *)
Inductive verdict_table : bool -> float -> Tier -> Prop :=
| row_high_risk c :
    gt c f0_8 = true -> verdict_table true c HIGH_RISK
| row_suspicious c :
    gt c f0_6 = true -> le c f0_8 = true -> verdict_table true c SUSPICIOUS
| row_potential_risk c :
    le c f0_6 = true -> verdict_table true c POTENTIAL_RISK
| row_safe c :
    gt c f0_8 = true -> verdict_table false c SAFE
| row_likely_safe c :
    gt c f0_6 = true -> le c f0_8 = true -> verdict_table false c LIKELY_SAFE
| row_uncertain c :
    le c f0_6 = true -> verdict_table false c UNCERTAIN.

(** The text of the UNCERTAIN tier, which has no field to fill in. *)
Definition uncertain_message : str :=
  WARNING_SIGN
    ++ lit " UNCERTAIN: Unable to determine with high confidence. Proceed with caution.".

(** A decimal digit. *)
Definition is_digit (c : char) : bool := (48 <=? c)%N && (c <=? 57)%N.

(** A number written with exactly one digit. *)
Definition one_digit (n : N) : bool :=
  match digits n with
  | [d] => is_digit d
  | _ => false
  end.

(** A percentage with one decimal place: an optional minus sign, at
    least one digit, a point, one digit and the percent sign. *)
Definition one_decimal_percent (s : str) : Prop :=
  exists (sgn whole : str) (d : char),
    s = sgn ++ whole ++ lit "." ++ [d] ++ lit "%"
    /\ (sgn = [] \/ sgn = lit "-")
    /\ whole <> []
    /\ forallb is_digit whole = true
    /\ is_digit d = true.

(** Sample values for the worked examples. *)
Definition f0_55 : float := S754_finite false 4953959590107546 (-53).
Definition f0_95 : float := S754_finite false 8556839292003942 (-53).
Definition f0_7 : float := S754_finite false 6305039478318694 (-53).
Definition f0_25 : float := S754_finite false 4503599627370496 (-54).
Definition f0_75 : float := S754_finite false 6755399441055744 (-53).

Definition url_only_request : PhishingAnalysisRequest :=
  {| url := lit "https://paypal-security-update.ml/login";
     text := None;
     title := None |}.

(** A text of more than 1000 characters, used in the worked examples:
    1500 letters [a] followed by one [b]. *)
Definition long_text : str := repeat 97%N 1500 ++ [98%N].

Definition long_request : PhishingAnalysisRequest :=
  {| url := lit "https://www.google.com";
     text := Some long_text;
     title := Some (lit "Google") |}.

(** A stand-in for the libraries, for the worked examples: a tokenizer
    that returns the code points as ids, a model that always answers
    with the distribution (0.25, 0.75), a softmax that leaves such a
    row as it is, no GPU, and exceptions printed as status and detail. *)
Definition sample_tokenizer : Tokenizer :=
  {| tokenizer_call := fun s => inr [("input_ids"%string, [map Z.of_N s])] |}.

Definition sample_model : Model :=
  {| model_call := fun _ => inr [[f0_25; f0_75]];
     model_to := fun _ => inr tt |}.

Definition sample_lib : Libs :=
  {| cuda_is_available := false;
     tokenizer_from_pretrained := fun _ => inr sample_tokenizer;
     model_from_pretrained := fun _ => inr sample_model;
     softmax := fun row => row;
     str_HTTPException := fun c d => digits (Z.to_N c) ++ lit ": " ++ d |}.

Definition sample_loaded : Globals :=
  {| model := Some sample_model;
     tokenizer := Some sample_tokenizer;
     device := Some cpu |}.

(** The magnitude of a finite float, as an exact rational. *)
Definition magnitude (m : positive) (e : Z) : Q := value (S754_finite false m e).

(** The tiers of either label, from the least to the most confident. *)
Definition tier_rank (t : Tier) : nat :=
  match t with
  | POTENTIAL_RISK | UNCERTAIN => 0
  | SUSPICIOUS | LIKELY_SAFE => 1
  | HIGH_RISK | SAFE => 2
  end.

(** The length of an optional field, 0 when it is not given. *)
Definition field_len (field : option str) : nat :=
  match field with
  | Some s => len s
  | None => 0
  end.

(** A tokenizer that rejects every text, for the worked examples. *)
Definition failing_tokenizer : Tokenizer :=
  {| tokenizer_call := fun _ => inl (RuntimeError (lit "text input must be of type str")) |}.

(** A model with a single output class, for the worked examples. *)
Definition one_class_model : Model :=
  {| model_call := fun _ => inr [[f0_75]];
     model_to := fun _ => inr tt |}.

(** Libraries whose model cannot be fetched, and libraries whose model
    cannot be moved to the device. *)
Definition lib_without_model : Libs :=
  {| cuda_is_available := false;
     tokenizer_from_pretrained := fun _ => inr sample_tokenizer;
     model_from_pretrained := fun _ => inl (OSError (lit "model not found"));
     softmax := fun row => row;
     str_HTTPException := fun c d => digits (Z.to_N c) ++ lit ": " ++ d |}.

Definition immovable_model : Model :=
  {| model_call := fun _ => inr [[f0_25; f0_75]];
     model_to := fun _ => inl (RuntimeError (lit "CUDA out of memory")) |}.

Definition lib_with_immovable_model : Libs :=
  {| cuda_is_available := true;
     tokenizer_from_pretrained := fun _ => inr sample_tokenizer;
     model_from_pretrained := fun _ => inr immovable_model;
     softmax := fun row => row;
     str_HTTPException := fun c d => digits (Z.to_N c) ++ lit ": " ++ d |}.

(** A feed and a benign list for the worked examples: the feed has a
    blank line and a URL that is also in the benign list. *)
Definition sample_feed : list str :=
  [lit "  http://evil.example/login ";
   lit "   ";
   lit "http://shop.example/"].

Definition sample_domains : list str :=
  [lit "shop.example"; lit "news.example"; lit "news.example"].

(** * Properties *)

(** ** The text normalizer *)

Lemma join_cons (sep p : str) (rest : list str) :
  rest <> [] -> join sep (p :: rest) = p ++ sep ++ join sep rest.
Proof.
  destruct rest as [|q rest]; [congruence | reflexivity].
Qed.

Lemma firstn_1000_short (x : str) :
  (1000 <? len x) = false -> firstn 1000 x = x.
Proof.
  intros H. apply Nat.ltb_ge in H. apply firstn_all2. exact H.
Qed.

(** The content part the code appends is the one the specification
    describes: the conditional slice is the plain slice. *)
Lemma content_of_code (x : str) :
  (if 1000 <? len x then slice_to 1000 x else x) = firstn 1000 x.
Proof.
  destruct (1000 <? len x) eqn:E; [reflexivity|].
  symmetry. apply firstn_1000_short. exact E.
Qed.

(** With a URL that is not empty the parts collected by the code are
    the segments of the specification; the fallback is not taken. *)
Lemma prepare_segments (request : PhishingAnalysisRequest) :
  url request <> [] ->
  _prepare_text_for_analysis request = join (lit " ") (segments_spec request).
Proof.
  intros Hu. unfold _prepare_text_for_analysis, segments_spec.
  destruct request as [u x t]; cbn [url text title] in *.
  destruct u as [|c u]; [congruence|]. cbn [truthy app].
  unfold title_segment, content_segment.
  destruct t as [t|]; [destruct (truthy t)|];
    (destruct x as [x|]; [destruct (truthy x)|]);
    cbn [app]; rewrite ?content_of_code; reflexivity.
Qed.

(** With an empty URL the URL segment is missing and the other two are
    as before; the fallback supplies the empty URL when there is
    nothing else. *)
Lemma prepare_empty_url (x t : option str) :
  _prepare_text_for_analysis {| url := []; text := x; title := t |}
  = join (lit " ") (title_segment t ++ content_segment x).
Proof.
  unfold _prepare_text_for_analysis. cbn [url text title truthy app].
  unfold title_segment, content_segment.
  destruct t as [t|]; [destruct (truthy t)|];
    (destruct x as [x|]; [destruct (truthy x)|]);
    cbn [app]; rewrite ?content_of_code; reflexivity.
Qed.

Lemma join_head (sep p : str) (rest : list str) :
  exists tail, join sep (p :: rest) = p ++ tail.
Proof.
  destruct rest as [|q rest].
  - exists []. cbn. now rewrite app_nil_r.
  - exists (sep ++ join sep (q :: rest)). reflexivity.
Qed.

(** Empty title and text count as absent. *)
Lemma empty_fields_are_absent (u : str) :
  _prepare_text_for_analysis {| url := u; text := Some []; title := Some [] |}
  = _prepare_text_for_analysis {| url := u; text := None; title := None |}.
Proof. reflexivity. Qed.

(** All three fields present: the three labelled segments, separated by
    one space each. *)
Lemma prepare_all_present (u t x : str) :
  u <> [] -> t <> [] -> x <> [] ->
  _prepare_text_for_analysis {| url := u; text := Some x; title := Some t |}
  = lit "URL: " ++ u ++ lit " " ++ lit "Title: " ++ t
      ++ lit " " ++ lit "Content: " ++ firstn 1000 x.
Proof.
  intros Hu Ht Hx. rewrite prepare_segments by exact Hu.
  unfold segments_spec, title_segment, content_segment. cbn [url text title].
  destruct t as [|a t]; [congruence|]. destruct x as [|b x]; [congruence|].
  cbn [truthy app join]. now rewrite <- !app_assoc.
Qed.

(** C2, as the code has it: when the URL is not empty and neither a
    title nor a text is present, the normalized text is the URL behind
    its label ["URL: "], not the bare URL. *)
Theorem C2_url_only_is_labelled (request : PhishingAnalysisRequest) :
  url request <> [] ->
  present (title request) = false ->
  present (text request) = false ->
  _prepare_text_for_analysis request = lit "URL: " ++ url request.
Proof.
  intros Hu Ht Hx. rewrite prepare_segments by exact Hu.
  unfold segments_spec, title_segment, content_segment.
  unfold present, truthy_opt in Ht, Hx.
  destruct (title request) as [t|]; [rewrite Ht|];
    (destruct (text request) as [x|]; [rewrite Hx|]); reflexivity.
Qed.

Lemma C2_url_only_is_labelled_witness :
  _prepare_text_for_analysis url_only_request
  = lit "URL: " ++ lit "https://paypal-security-update.ml/login".
Proof.
  apply (C2_url_only_is_labelled url_only_request).
  - discriminate.
  - reflexivity.
  - reflexivity.
Defined.

(** C2, as the specification has it, fails: for the URL-only request of
    the service's own test script the normalized text is not the raw
    URL. *)
Lemma C2_url_only_not_bare :
  url url_only_request <> []
  /\ title url_only_request = None
  /\ text url_only_request = None
  /\ _prepare_text_for_analysis url_only_request <> url url_only_request.
Proof.
  repeat split; try discriminate.
Qed.

Lemma join_last (sep p : str) (l : list str) :
  exists before, join sep (l ++ [p]) = before ++ p.
Proof.
  induction l as [|q l IH].
  - exists []. reflexivity.
  - destruct IH as [before IH]. exists (q ++ sep ++ before).
    cbn [app]. rewrite join_cons by (destruct l; discriminate).
    rewrite IH. now rewrite <- !app_assoc.
Qed.

(** C3: with a URL that is not empty, the normalized text is the
    present segments, in the order URL, Title, Content, joined by one
    space; and a text of more than 1000 characters contributes, as the
    final segment, the label followed by exactly its first 1000
    characters. *)
Theorem C3_segments_in_order (request : PhishingAnalysisRequest) :
  url request <> [] ->
  _prepare_text_for_analysis request = join (lit " ") (segments_spec request)
  /\ (forall x, text request = Some x -> 1000 < len x ->
        content_segment (text request) = [lit "Content: " ++ firstn 1000 x]
        /\ len (firstn 1000 x) = 1000
        /\ exists before,
             _prepare_text_for_analysis request
             = before ++ lit "Content: " ++ firstn 1000 x).
Proof.
  intros Hu. split; [apply prepare_segments; exact Hu|].
  intros x Hx Hlen.
  assert (Hseg : content_segment (text request) = [lit "Content: " ++ firstn 1000 x]).
  { rewrite Hx. unfold content_segment.
    destruct x as [|c x]; [cbn in Hlen; lia | reflexivity]. }
  split; [exact Hseg|]. split.
  - unfold len in *. rewrite length_firstn. lia.
  - rewrite prepare_segments by exact Hu. unfold segments_spec.
    rewrite Hseg, app_assoc.
    destruct (join_last (lit " ") (lit "Content: " ++ firstn 1000 x)
                ([lit "URL: " ++ url request] ++ title_segment (title request)))
      as [before Hb].
    exists before. exact Hb.
Qed.

Lemma C3_segments_in_order_witness :
  _prepare_text_for_analysis long_request
  = lit "URL: https://www.google.com Title: Google Content: " ++ repeat 97%N 1000
  /\ content_segment (text long_request) = [lit "Content: " ++ repeat 97%N 1000].
Proof.
  destruct (C3_segments_in_order long_request) as [H1 H2].
  - discriminate.
  - split.
    + rewrite H1. vm_compute. reflexivity.
    + destruct (H2 long_text eq_refl) as [H3 _].
      * apply Nat.ltb_lt. vm_compute. reflexivity.
      * rewrite H3. vm_compute. reflexivity.
Defined.

(** C7: with a URL that is not empty, the normalized text is not
    empty, whatever the title and the text are. *)
Theorem C7_normalized_nonempty (request : PhishingAnalysisRequest) :
  url request <> [] -> _prepare_text_for_analysis request <> [].
Proof.
  intros Hu. rewrite prepare_segments by exact Hu. unfold segments_spec.
  cbn [app].
  destruct (join_head (lit " ") (lit "URL: " ++ url request)
              (title_segment (title request) ++ content_segment (text request)))
    as [tail Ht].
  intros Hempty. pose proof (eq_trans (eq_sym Ht) Hempty) as Habs.
  discriminate Habs.
Qed.

Lemma C7_normalized_nonempty_witness :
  _prepare_text_for_analysis url_only_request <> [].
Proof.
  apply (C7_normalized_nonempty url_only_request). discriminate.
Defined.

(** A body without [url] is rejected before any handler runs. *)
Lemma validate_missing_url (body_text body_title : option str) :
  validate_request None body_text body_title = None.
Proof. reflexivity. Qed.

(** C9: an empty URL passes validation, which asks only that the field
    be there; the normalizer then returns the empty string when title
    and text are absent, and otherwise the title and content segments
    alone, without a URL segment. *)
Theorem C9_empty_url (body_text body_title : option str) :
  validate_request (Some []) body_text body_title
  = Some {| url := []; text := body_text; title := body_title |}
  /\ _prepare_text_for_analysis {| url := []; text := None; title := None |} = []
  /\ _prepare_text_for_analysis {| url := []; text := body_text; title := body_title |}
     = join (lit " ") (title_segment body_title ++ content_segment body_text)
  /\ (present body_title || present body_text = true ->
      starts_with (lit "URL: ")
        (_prepare_text_for_analysis
           {| url := []; text := body_text; title := body_title |}) = false).
Proof.
  split; [reflexivity|]. split; [reflexivity|]. split; [apply prepare_empty_url|].
  intros Hp. rewrite prepare_empty_url.
  unfold present, truthy_opt, title_segment, content_segment in *.
  destruct body_title as [t|]; [destruct (truthy t)|];
    (destruct body_text as [x|]; [destruct (truthy x)|]);
    cbn in Hp; try discriminate; reflexivity.
Qed.

Lemma C9_empty_url_witness :
  starts_with (lit "URL: ")
    (_prepare_text_for_analysis
       {| url := []; text := Some (lit "Click here now!"); title := None |}) = false.
Proof.
  apply (C9_empty_url (Some (lit "Click here now!")) None). reflexivity.
Defined.

(** ** Floats *)

(** The constants are the binary64 numbers nearest to the decimal
    literals of the source: each is within half a unit in the last
    place, 2^-54, of its literal. *)
Lemma literals_are_nearest :
  (Qabs (value f0_8 - Qmake 8 10) <= Qmake 1 (2 ^ 54))%Q
  /\ (Qabs (value f0_6 - Qmake 6 10) <= Qmake 1 (2 ^ 54))%Q
  /\ (value f0_5 == Qmake 1 2)%Q
  /\ (value f100 == 100)%Q.
Proof.
  split; [|split; [|split]].
  - vm_compute. discriminate.
  - vm_compute. discriminate.
  - vm_compute. reflexivity.
  - vm_compute. reflexivity.
Qed.

(** A NaN is above no threshold: it falls in the lowest tier of either
    label, a case the table does not list. *)
Lemma nan_is_above_nothing (b : float) : gt S754_nan b = false.
Proof. destruct b; reflexivity. Qed.


Lemma compare_cont_Eq_antisym (p q : positive) :
  Pos.compare_cont Eq q p = CompOpp (Pos.compare_cont Eq p q).
Proof. exact (Pos.compare_antisym p q). Qed.

(** Swapping the sides of a comparison reverses its outcome. *)
Lemma SFcompare_swap (a b : float) :
  SFcompare b a = option_map CompOpp (SFcompare a b).
Proof.
  destruct a as [sa|sa| |sa ma ea], b as [sb|sb| |sb mb eb]; cbn;
    try reflexivity;
    try (destruct sa; reflexivity);
    try (destruct sb; reflexivity);
    try (destruct sa, sb; reflexivity).
  destruct sa, sb; cbn; try reflexivity;
    rewrite (Z.compare_antisym ea eb);
    destruct (ea ?= eb)%Z; cbn; try reflexivity;
    rewrite (compare_cont_Eq_antisym ma mb);
    destruct (Pos.compare_cont Eq ma mb); reflexivity.
Qed.

(** [a <= b] excludes [a > b]. *)
Lemma le_not_gt (a b : float) : le a b = true -> gt a b = false.
Proof.
  unfold le, gt, SFleb, SFltb. rewrite (SFcompare_swap a b).
  destruct (SFcompare a b) as [[| |]|]; cbn; congruence.
Qed.

Lemma compare_cont_Eq_spec (p q : positive) :
  CompareSpec (p = q) (p < q)%positive (q < p)%positive (Pos.compare_cont Eq p q).
Proof. exact (Pos.compare_spec p q). Qed.

Lemma not_between (m a b : positive) :
  (a <? b)%positive = true -> (m <= a)%positive -> (b <= m)%positive -> False.
Proof. intros Hab Hma Hbm. apply Pos.ltb_lt in Hab. lia. Qed.

(** Below or at 0.6 is not above 0.8. *)
Lemma le_0_6_not_gt_0_8 (c : float) : le c f0_6 = true -> gt c f0_8 = false.
Proof.
  unfold le, gt, SFleb, SFltb, f0_6, f0_8.
  destruct c as [s|s| |s m e]; unfold SFcompare; try reflexivity.
  - destruct s; cbv beta iota; congruence.
  - destruct s; [reflexivity|]. cbv beta iota.
    rewrite (Z.compare_antisym e (-53)).
    destruct (Z.compare_spec e (-53)) as [He|He|He]; cbv beta iota delta [CompOpp];
      [|congruence|congruence].
    assert (Hab : (5404319552844595 <? 7205759403792794)%positive = true)
      by (vm_compute; reflexivity).
    destruct (compare_cont_Eq_spec m 5404319552844595) as [H6|H6|H6];
      [| |intros Hle; discriminate Hle];
      (destruct (compare_cont_Eq_spec 7205759403792794 m) as [H8|H8|H8];
       [reflexivity| |reflexivity]);
      intros _; exfalso; apply (@not_between m _ _ Hab).
    + rewrite H6. apply Pos.le_refl.
    + apply Pos.lt_le_incl. exact H8.
    + apply Pos.lt_le_incl. exact H6.
    + apply Pos.lt_le_incl. exact H8.
Qed.

(** ** The verdict formatter *)

(** A text that opens with the heading of a tier announces that tier
    and no other. *)
Lemma message_tier_heading (t : Tier) (rest : str) :
  message_tier (tier_heading t ++ rest) = Some t.
Proof. destruct t; reflexivity. Qed.

(** The branch taken by the formatter, by the outcome of the two
    comparisons. *)
Lemma generate_tier (is_phishing : bool) (c : float) (u : str) :
  message_tier (_generate_response_message is_phishing c u)
  = Some (if is_phishing
          then if gt c f0_8 then HIGH_RISK
               else if gt c f0_6 then SUSPICIOUS else POTENTIAL_RISK
          else if gt c f0_8 then SAFE
               else if gt c f0_6 then LIKELY_SAFE else UNCERTAIN).
Proof.
  unfold _generate_response_message.
  generalize (format_pct1 c). intros pct.
  destruct is_phishing, (gt c f0_8), (gt c f0_6); reflexivity.
Qed.

(** C4: the formatter selects the tier by the table of the
    specification, row by row, and the exact value 0.8 falls in the
    lower tier (SUSPICIOUS, LIKELY SAFE). *)
Theorem C4_verdict_table :
  (forall (is_phishing : bool) (c : float) (u : str) (t : Tier),
      verdict_table is_phishing c t ->
      message_tier (_generate_response_message is_phishing c u) = Some t)
  /\ (forall u : str,
        message_tier (_generate_response_message true f0_8 u) = Some SUSPICIOUS
        /\ message_tier (_generate_response_message false f0_8 u) = Some LIKELY_SAFE).
Proof.
  split.
  - intros is_phishing c u t Hrow. rewrite generate_tier.
    destruct Hrow as [c H8|c H6 H8|c H6|c H8|c H6 H8|c H6].
    + now rewrite H8.
    + now rewrite (le_not_gt _ _ H8), H6.
    + now rewrite (le_0_6_not_gt_0_8 _ H6), (le_not_gt _ _ H6).
    + now rewrite H8.
    + now rewrite (le_not_gt _ _ H8), H6.
    + now rewrite (le_0_6_not_gt_0_8 _ H6), (le_not_gt _ _ H6).
  - intros u. rewrite !generate_tier. split; reflexivity.
Qed.

Lemma C4_verdict_table_witness :
  message_tier (_generate_response_message true f0_95 []) = Some HIGH_RISK
  /\ message_tier (_generate_response_message true f0_7 []) = Some SUSPICIOUS
  /\ message_tier (_generate_response_message true f0_55 []) = Some POTENTIAL_RISK
  /\ message_tier (_generate_response_message false f0_95 []) = Some SAFE
  /\ message_tier (_generate_response_message false f0_7 []) = Some LIKELY_SAFE
  /\ message_tier (_generate_response_message false f0_55 []) = Some UNCERTAIN.
Proof.
  destruct C4_verdict_table as [Htable _].
  split; [|split; [|split; [|split; [|split]]]]; apply Htable.
  - apply row_high_risk. reflexivity.
  - apply row_suspicious; reflexivity.
  - apply row_potential_risk. reflexivity.
  - apply row_safe. reflexivity.
  - apply row_likely_safe; reflexivity.
  - apply row_uncertain. reflexivity.
Defined.

(** *** The rendering of the confidence *)

Lemma starts_with_app (p s : str) : starts_with p (p ++ s) = true.
Proof.
  induction p as [|a p IH]; [reflexivity|].
  cbn. now rewrite N.eqb_refl, IH.
Qed.

Lemma contains_unfold (p s : str) :
  contains p s
  = starts_with p s || match s with [] => false | _ :: s' => contains p s' end.
Proof. destruct s; reflexivity. Qed.

Lemma contains_skip (a p s : str) :
  contains p s = true -> contains p (a ++ s) = true.
Proof.
  intros H. induction a as [|c a IH]; [exact H|].
  cbn [app]. rewrite contains_unfold, IH. apply orb_true_r.
Qed.

(** A text contains what was spliced into it. *)
Lemma contains_spliced (before p after : str) :
  contains p (before ++ p ++ after) = true.
Proof.
  apply contains_skip. rewrite contains_unfold, starts_with_app. reflexivity.
Qed.

Lemma uint_chars_digits (u : Decimal.uint) :
  forallb is_digit (uint_chars u) = true.
Proof. induction u; cbn [uint_chars forallb]; rewrite ?IHu; reflexivity. Qed.

Lemma uint_chars_nonnil (u : Decimal.uint) :
  u <> Decimal.Nil -> uint_chars u <> [].
Proof. destruct u; cbn; congruence. Qed.

Lemma digits_are_digits (n : N) : forallb is_digit (digits n) = true.
Proof. apply uint_chars_digits. Qed.

Lemma digits_nonempty (n : N) : digits n <> [].
Proof.
  unfold digits. apply uint_chars_nonnil.
  destruct n as [|p]; [discriminate|]. apply Unsigned.to_uint_nonnil.
Qed.

(** A number below ten is written with one digit. *)
Lemma digits_below_ten (n : N) :
  (n < 10)%N -> exists d, digits n = [d] /\ is_digit d = true.
Proof.
  intros H.
  assert (Hall : forallb one_digit (map N.of_nat (seq 0 10)) = true)
    by (vm_compute; reflexivity).
  rewrite forallb_forall in Hall.
  assert (Hn : one_digit n = true).
  { apply Hall. apply in_map_iff. exists (N.to_nat n). split.
    - apply N2Nat.id.
    - apply in_seq. lia. }
  unfold one_digit in Hn.
  destruct (digits n) as [|d [|d' rest]]; try discriminate.
  exists d. split; [reflexivity | exact Hn].
Qed.

(** Whenever a hundred times the value is finite, [format_pct1] writes
    it with one decimal place. *)
Lemma format_pct1_one_decimal (x : float) :
  is_finite (mul x f100) = true -> one_decimal_percent (format_pct1 x).
Proof.
  unfold format_pct1, format_f1. intros Hfin.
  destruct (mul x f100) as [s|s| |s m e]; try discriminate.
  - exists (sign_chars s), (lit "0"), 48%N. repeat split.
    + destruct s; reflexivity.
    + destruct s; [right|left]; reflexivity.
    + discriminate.
  - destruct (@digits_below_ten (tenths m e mod 10)%N) as [d [Hd Hdig]].
    { apply N.mod_lt. discriminate. }
    exists (sign_chars s), (digits (tenths m e / 10)%N), d.
    rewrite Hd. split; [|split; [|split; [|split]]].
    + now rewrite <- !app_assoc.
    + destruct s; [right|left]; reflexivity.
    + apply digits_nonempty.
    + apply digits_are_digits.
    + exact Hdig.
Qed.

Lemma starts_with_true (p s : str) :
  starts_with p s = true -> exists after, s = p ++ after.
Proof.
  revert s. induction p as [|a p IH]; intros s H.
  - exists s. reflexivity.
  - destruct s as [|b s]; [discriminate H|]. cbn in H.
    apply andb_true_iff in H. destruct H as [Hab Hrest].
    apply N.eqb_eq in Hab. subst b.
    destruct (IH s Hrest) as [after ->]. exists after. reflexivity.
Qed.

(** What a text contains lies somewhere in it. *)
Lemma contains_true (p s : str) :
  contains p s = true -> exists before after, s = before ++ p ++ after.
Proof.
  induction s as [|c s IH]; rewrite contains_unfold; intros H;
    apply orb_true_iff in H; destruct H as [H|H]; try discriminate H.
  - destruct (starts_with_true p [] H) as [after Ha]. exists [], after. exact Ha.
  - destruct (starts_with_true p (c :: s) H) as [after Ha]. exists [], after. exact Ha.
  - destruct (IH H) as [before [after ->]]. exists (c :: before), after. reflexivity.
Qed.

(** A text that lacks the end of a word lacks the word. *)
Lemma contains_end (p q s : str) :
  contains q s = false -> contains (p ++ q) s = false.
Proof.
  intros Hq. destruct (contains (p ++ q) s) eqn:Hpq; [|reflexivity].
  destruct (contains_true _ _ Hpq) as [before [after ->]].
  rewrite <- app_assoc, app_assoc, contains_spliced in Hq. discriminate Hq.
Qed.

(** When a hundred times the value is not finite, [format_pct1] writes
    the name of the special value. *)
Lemma format_pct1_special (x : float) :
  is_finite (mul x f100) = false ->
  format_pct1 x = lit "nan%" \/ format_pct1 x = lit "inf%" \/ format_pct1 x = lit "-inf%".
Proof.
  unfold format_pct1, format_f1. intros Hfin.
  destruct (mul x f100) as [s|s| |s m e]; try discriminate Hfin.
  - destruct s; [right; right | right; left]; reflexivity.
  - left. reflexivity.
Qed.

(** A NaN confidence of a phishing verdict is shown as it is, in the
    lowest tier: the text rendered is not a number with one decimal. *)
Lemma nan_confidence_is_rendered_nan :
  format_pct1 S754_nan = lit "nan%"
  /\ message_tier (_generate_response_message true S754_nan []) = Some POTENTIAL_RISK
  /\ contains (lit "nan%") (_generate_response_message true S754_nan []) = true
  /\ ~ one_decimal_percent (lit "nan%").
Proof.
  split; [reflexivity|]. split; [reflexivity|]. split; [reflexivity|].
  intros [sgn [whole [d [Heq [Hsgn [Hne [Hdig _]]]]]]].
  destruct whole as [|w whole]; [congruence|].
  cbn [forallb] in Hdig. apply andb_true_iff in Hdig. destruct Hdig as [Hw _].
  destruct Hsgn as [-> | ->]; cbn in Heq; injection Heq as Hhead _.
  - subst w. vm_compute in Hw. discriminate Hw.
  - discriminate Hhead.
Qed.

(** C6, as the code has it, for every label, confidence and URL: in
    every tier but UNCERTAIN the message contains the confidence as the
    one-decimal percent format renders it; the UNCERTAIN message is the
    same fixed text whatever the confidence is, holds no percent sign
    and so does not contain the rendered confidence; and the rendered
    confidence is a percentage with one decimal place whenever a
    hundred times the confidence is finite, and the name of the special
    value (nan, inf, -inf) with a percent sign when it is not. *)
Theorem C6_percentage_except_uncertain
    (is_phishing : bool) (c : float) (u : str) :
  (message_tier (_generate_response_message is_phishing c u) <> Some UNCERTAIN ->
   contains (format_pct1 c) (_generate_response_message is_phishing c u) = true)
  /\ (message_tier (_generate_response_message is_phishing c u) = Some UNCERTAIN ->
      _generate_response_message is_phishing c u = uncertain_message
      /\ contains (lit "%") (_generate_response_message is_phishing c u) = false
      /\ contains (format_pct1 c) (_generate_response_message is_phishing c u) = false)
  /\ (is_finite (mul c f100) = true -> one_decimal_percent (format_pct1 c))
  /\ (is_finite (mul c f100) = false ->
      format_pct1 c = lit "nan%" \/ format_pct1 c = lit "inf%"
      \/ format_pct1 c = lit "-inf%").
Proof.
  split; [|split; [|split; [apply format_pct1_one_decimal | apply format_pct1_special]]].
  - intros Htier. rewrite generate_tier in Htier. unfold _generate_response_message.
    destruct is_phishing, (gt c f0_8), (gt c f0_6);
      try (exfalso; apply Htier; reflexivity);
      rewrite app_assoc; apply contains_spliced.
  - intros Htier. rewrite generate_tier in Htier.
    assert (Hmsg : _generate_response_message is_phishing c u = uncertain_message).
    { unfold _generate_response_message.
      destruct is_phishing, (gt c f0_8), (gt c f0_6);
        try discriminate Htier; reflexivity. }
    rewrite Hmsg. split; [reflexivity|].
    assert (Hpct : contains (lit "%") uncertain_message = false)
      by (vm_compute; reflexivity).
    split; [exact Hpct|].
    unfold format_pct1. apply contains_end. exact Hpct.
Qed.

Lemma C6_percentage_except_uncertain_witness :
  contains (lit "70.0%") (_generate_response_message false f0_7 []) = true
  /\ one_decimal_percent (lit "70.0%")
  /\ _generate_response_message false f0_55 [] = uncertain_message
  /\ contains (lit "55.0%") (_generate_response_message false f0_55 []) = false
  /\ (format_pct1 S754_nan = lit "nan%" \/ format_pct1 S754_nan = lit "inf%"
      \/ format_pct1 S754_nan = lit "-inf%").
Proof.
  destruct (@C6_percentage_except_uncertain false f0_7 []) as [H1 [_ [H3 _]]].
  destruct (@C6_percentage_except_uncertain false f0_55 []) as [_ [H2 _]].
  destruct (@C6_percentage_except_uncertain true S754_nan []) as [_ [_ [_ H4]]].
  split; [apply H1; vm_compute; discriminate|].
  split; [apply H3; reflexivity|].
  destruct H2 as [Hmsg [_ Hnot]]; [reflexivity|].
  split; [exact Hmsg|]. split; [exact Hnot|].
  apply H4. reflexivity.
Defined.

(** C6, as the specification has it, fails: a legitimate verdict with
    confidence 0.55 gets the UNCERTAIN message, a fixed text in which
    the rendered confidence, 55.0%, does not occur. *)
Lemma C6_uncertain_has_no_percentage :
  format_pct1 f0_55 = lit "55.0%"
  /\ message_tier (_generate_response_message false f0_55 (lit "https://www.google.com"))
     = Some UNCERTAIN
  /\ contains (format_pct1 f0_55)
       (_generate_response_message false f0_55 (lit "https://www.google.com")) = false.
Proof. split; [|split]; vm_compute; reflexivity. Qed.

(** ** The classifier adapter *)

(** On a loaded model that yields one row of two probabilities, the
    inference returns the verdict below and leaves the globals alone. *)
Lemma run_inference_two_classes
    (lib : Libs) (g : Globals) (tok : Tokenizer) (m : Model)
    (txt : str) (inputs : Encoding) (logits : Tensor) (p0 p1 : float) :
  tokenizer g = Some tok ->
  model g = Some m ->
  tokenizer_call tok txt = inr inputs ->
  model_call m inputs = inr logits ->
  map (softmax lib) logits = [[p0; p1]] ->
  _run_inference lib txt g
  = (inr (beats p1 p0, if beats p1 p0 then p1 else p0, p1), g).
Proof.
  intros Htok Hm Hcall Hfwd Hsoft.
  unfold _run_inference, try_except, bind, get, callable, lift, ret.
  rewrite Htok, Hcall, Hm, Hfwd, Hsoft. cbn.
  destruct (beats p1 p0); reflexivity.
Qed.

(** A legitimate verdict: with the distribution (0.75, 0.25) the label
    is class 0, the confidence 0.75 and the risk score 0.25. *)
Example run_inference_legitimate :
  _run_inference sample_lib (lit "URL: https://www.google.com")
    {| model := Some {| model_call := fun _ => inr [[f0_75; f0_25]];
                        model_to := fun _ => inr tt |};
       tokenizer := Some sample_tokenizer;
       device := Some cpu |}
  = (inr (false, f0_75, f0_25),
     {| model := Some {| model_call := fun _ => inr [[f0_75; f0_25]];
                         model_to := fun _ => inr tt |};
        tokenizer := Some sample_tokenizer;
        device := Some cpu |}).
Proof. reflexivity. Qed.

(** C5: for a two-class distribution returned by the model, the risk
    score is the probability of class 1 whatever the label is; the
    confidence is the risk score when the verdict is phishing, and one
    minus the risk score when it is not, up to the tolerance within
    which the two probabilities sum to one. *)
Theorem C5_confidence_and_risk
    (lib : Libs) (g : Globals) (tok : Tokenizer) (m : Model)
    (txt : str) (inputs : Encoding) (logits : Tensor) (p0 p1 : float) (eps : Q) :
  tokenizer g = Some tok ->
  model g = Some m ->
  tokenizer_call tok txt = inr inputs ->
  model_call m inputs = inr logits ->
  map (softmax lib) logits = [[p0; p1]] ->
  is_finite p0 = true ->
  is_finite p1 = true ->
  (Qabs (value p0 + value p1 - 1) <= eps)%Q ->
  exists (is_phishing : bool) (confidence risk_score : float),
    _run_inference lib txt g = (inr (is_phishing, confidence, risk_score), g)
    /\ risk_score = p1
    /\ (is_phishing = true -> confidence = risk_score)
    /\ (is_phishing = false ->
        (Qabs (value confidence - (1 - value risk_score)) <= eps)%Q).
Proof.
  intros Htok Hm Hcall Hfwd Hsoft _ _ Hsum.
  exists (beats p1 p0), (if beats p1 p0 then p1 else p0), p1.
  split; [now apply run_inference_two_classes with tok m inputs logits|].
  split; [reflexivity|]. split; intros Hb; rewrite Hb; [reflexivity|].
  assert (E : (value p0 - (1 - value p1) == value p0 + value p1 - 1)%Q) by ring.
  rewrite E. exact Hsum.
Qed.

Lemma C5_confidence_and_risk_witness :
  exists (is_phishing : bool) (confidence risk_score : float),
    _run_inference sample_lib (lit "URL: https://www.google.com") sample_loaded
    = (inr (is_phishing, confidence, risk_score), sample_loaded)
    /\ risk_score = f0_75
    /\ (is_phishing = true -> confidence = risk_score)
    /\ (is_phishing = false ->
        (Qabs (value confidence - (1 - value risk_score)) <= 0)%Q).
Proof.
  apply (@C5_confidence_and_risk sample_lib sample_loaded sample_tokenizer sample_model
           (lit "URL: https://www.google.com")
           [("input_ids"%string, [map Z.of_N (lit "URL: https://www.google.com")])]
           [[f0_25; f0_75]] f0_25 f0_75 0%Q);
    try reflexivity.
  vm_compute. discriminate.
Defined.

(** ** Model lifecycle and health *)

(** The health check never fails and never writes; it reports the
    status, whether the global [model] is set, and the device. *)
Lemma health_check_run (g : Globals) :
  health_check g
  = (inr {| health_status := lit "healthy";
            health_service := lit "ml-phishing-detector";
            health_model_loaded := negb (is_None (model g));
            health_device := match device g with
                             | Some d => str_of_device d
                             | None => lit "unknown"
                             end |}, g).
Proof. reflexivity. Qed.

(** A load that succeeds has set all three globals; the outcomes of the
    library calls are the ones that made it succeed. *)
Lemma load_model_success (lib : Libs) (g g' : Globals) :
  load_model lib g = (inr tt, g') ->
  exists (tok : Tokenizer) (m : Model),
    tokenizer_from_pretrained lib model_name = inr tok
    /\ model_from_pretrained lib model_name = inr m
    /\ g' = {| model := Some m;
               tokenizer := Some tok;
               device := Some (if cuda_is_available lib then cuda else cpu) |}.
Proof.
  unfold load_model, try_except, bind, get, put, lift, ret, raise.
  destruct (tokenizer_from_pretrained lib model_name) as [e|tok];
    [discriminate|].
  destruct (model_from_pretrained lib model_name) as [e|m];
    [discriminate|].
  cbn. destruct (model_to m (if cuda_is_available lib then cuda else cpu)) as [e|[]];
    [discriminate|].
  intros H. injection H as <-. exists tok, m. auto.
Qed.

(** A load whose library calls all succeed succeeds. *)
Lemma load_model_succeeds (lib : Libs) (g : Globals) (tok : Tokenizer) (m : Model) :
  tokenizer_from_pretrained lib model_name = inr tok ->
  model_from_pretrained lib model_name = inr m ->
  model_to m (if cuda_is_available lib then cuda else cpu) = inr tt ->
  load_model lib g
  = (inr tt, {| model := Some m;
                tokenizer := Some tok;
                device := Some (if cuda_is_available lib then cuda else cpu) |}).
Proof.
  intros Htok Hm Hto.
  unfold load_model, try_except, bind, get, put, lift, ret, raise.
  rewrite Htok, Hm. cbn. rewrite Hto. reflexivity.
Qed.

(** C8: the health check returns a record whose status is "healthy",
    whose [model_loaded] says whether the global model is set (false
    in the initial state, true after a load that succeeded), and whose
    device is a string: "cuda", "cpu", or "unknown" before a load. *)
Theorem C8_health_check :
  (forall g : Globals,
      exists h : Health,
        health_check g = (inr h, g)
        /\ health_status h = lit "healthy"
        /\ health_model_loaded h = negb (is_None (model g))
        /\ (health_device h = lit "cuda" \/ health_device h = lit "cpu"
            \/ health_device h = lit "unknown"))
  /\ (exists h : Health,
        health_check initial = (inr h, initial)
        /\ health_model_loaded h = false)
  /\ (forall (lib : Libs) (g' : Globals),
        load_model lib initial = (inr tt, g') ->
        exists h : Health,
          health_check g' = (inr h, g')
          /\ health_status h = lit "healthy"
          /\ health_model_loaded h = true
          /\ (health_device h = lit "cuda" \/ health_device h = lit "cpu")).
Proof.
  split; [|split].
  - intros g. eexists. split; [apply health_check_run|]. cbn.
    split; [reflexivity|]. split; [reflexivity|].
    destruct (device g) as [[|]|]; auto.
  - eexists. split; [apply health_check_run|]. reflexivity.
  - intros lib g' Hload.
    destruct (load_model_success lib initial Hload) as [tok [m [_ [_ ->]]]].
    eexists. split; [apply health_check_run|]. cbn.
    split; [reflexivity|]. split; [reflexivity|].
    destruct (cuda_is_available lib); auto.
Qed.

Lemma C8_health_check_witness :
  exists h : Health,
    health_check sample_loaded = (inr h, sample_loaded)
    /\ health_status h = lit "healthy"
    /\ health_model_loaded h = true
    /\ (health_device h = lit "cuda" \/ health_device h = lit "cpu").
Proof.
  destruct C8_health_check as [_ [_ Hafter]].
  apply (Hafter sample_lib sample_loaded). reflexivity.
Defined.

(** ** The request handler *)

(** A request to a loaded service with a two-class model is answered;
    here with the stand-in libraries, whose model says 0.75. *)
Example analyze_phishing_sample :
  exists r : PhishingAnalysisResponse,
    analyze_phishing sample_lib url_only_request sample_loaded = (inr r, sample_loaded)
    /\ is_phishing r = true
    /\ confidence r = f0_75
    /\ risk_score r = f0_75
    /\ message_tier (message r) = Some SUSPICIOUS
    /\ contains (lit "75.0%") (message r) = true
    /\ option_map details_analysis_text (details r)
       = Some (lit "URL: https://paypal-security-update.ml/login").
Proof. eexists. repeat split; vm_compute; reflexivity. Qed.

(** C1, on the code: when the model or the tokenizer is not loaded the
    handler does raise the 503 error, but inside its own [try], whose
    [except Exception] clause catches it and raises the generic 500
    error in its place. *)
Theorem C1_not_loaded_is_answered_500
    (lib : Libs) (request : PhishingAnalysisRequest) (g : Globals) :
  is_None (model g) || is_None (tokenizer g) = true ->
  analyze_phishing lib request g
  = (inl (HTTPException 500
            (lit "Analysis failed: "
               ++ str_HTTPException lib 503 (lit "Model not loaded"))), g).
Proof.
  intros Hnone.
  unfold analyze_phishing, try_except, bind, get, raise.
  rewrite Hnone. reflexivity.
Qed.

Lemma C1_not_loaded_is_answered_500_witness :
  analyze_phishing sample_lib url_only_request initial
  = (inl (HTTPException 500 (lit "Analysis failed: 503: Model not loaded")), initial).
Proof.
  apply (@C1_not_loaded_is_answered_500 sample_lib url_only_request initial).
  reflexivity.
Defined.

(** ** The alternate service *)

(** [float] refuses the method object it is handed. *)
Lemma float_of_bound_method (p : float) :
  exists msg, MlInference.builtin_float (MlInference.attr_item p) = inl (TypeError msg).
Proof. eexists. reflexivity. Qed.

(** When tokenizer and model deliver a second class probability, the
    error that ends the request is the [TypeError] of [float]. *)
Lemma predict_TypeError
    (lib : Libs) (request : MlInference.PredictRequest) (a : MlInference.App)
    (tok : Tokenizer) (m : Model) (inputs : Encoding) (logits : Tensor)
    (p0 p1 : float) (rest : list float) (others : Tensor) :
  MlInference.app_tokenizer a = Some tok ->
  MlInference.app_model a = Some m ->
  tokenizer_call tok (MlInference.text request) = inr inputs ->
  model_call m inputs = inr logits ->
  map (softmax lib) logits = (p0 :: p1 :: rest) :: others ->
  MlInference.predict lib request a
  = (inl (HTTPException 500
            (lit "float() argument must be a string or a real number, not 'builtin_function_or_method'")),
     a).
Proof.
  intros Htok Hm Hcall Hfwd Hsoft.
  unfold MlInference.predict, MlInference.getattr,
    try_except, bind, get, lift, raise, ret.
  rewrite Htok, Hcall, Hm, Hfwd, Hsoft. reflexivity.
Qed.

Example predict_sample :
  MlInference.predict sample_lib
    {| MlInference.text := lit "Click here now!" |}
    {| MlInference.app_tokenizer := Some sample_tokenizer;
       MlInference.app_model := Some sample_model |}
  = (inl (HTTPException 500
            (lit "float() argument must be a string or a real number, not 'builtin_function_or_method'")),
     {| MlInference.app_tokenizer := Some sample_tokenizer;
        MlInference.app_model := Some sample_model |}).
Proof. reflexivity. Qed.

(** C10: the handler of [/predict] never returns a response: [float]
    is handed the method [item] itself and raises, and whatever the
    request, the libraries and the state of the application are, the
    handler ends in the 500 error. *)
Theorem C10_predict_always_500
    (lib : Libs) (request : MlInference.PredictRequest) (a : MlInference.App) :
  (forall p : float,
      exists msg,
        MlInference.builtin_float (MlInference.attr_item p) = inl (TypeError msg))
  /\ (exists detail : str,
        MlInference.predict lib request a = (inl (HTTPException 500 detail), a))
  /\ (forall (response : MlInference.PredictResponse) (a' : MlInference.App),
        MlInference.predict lib request a <> (inr response, a')).
Proof.
  split; [apply float_of_bound_method|].
  assert (H : exists detail : str,
             MlInference.predict lib request a = (inl (HTTPException 500 detail), a)).
  { unfold MlInference.predict, MlInference.getattr,
      try_except, bind, get, lift, raise, ret.
    destruct (MlInference.app_tokenizer a) as [tok|]; cbv beta iota;
      [|eexists; reflexivity].
    destruct (tokenizer_call tok (MlInference.text request)) as [e|inputs];
      cbv beta iota; [eexists; reflexivity|].
    destruct (MlInference.app_model a) as [m|]; cbv beta iota;
      [|eexists; reflexivity].
    destruct (model_call m inputs) as [e|logits]; cbv beta iota;
      [eexists; reflexivity|].
    destruct (index (map (softmax lib) logits) 0) as [e|probabilities];
      cbv beta iota; [eexists; reflexivity|].
    destruct (index probabilities 1) as [e|p1]; eexists; reflexivity. }
  split; [exact H|].
  intros response a' Hok. destruct H as [detail H].
  rewrite H in Hok. discriminate Hok.
Qed.

(** * Further properties of the code *)

(** ** The classifier adapter, continued *)

(** Running the inference reads the globals and never writes them. *)
Lemma run_inference_keeps_globals (lib : Libs) (txt : str) (g : Globals) :
  snd (_run_inference lib txt g) = g.
Proof.
  unfold _run_inference, callable, try_except, bind, get, lift, raise, ret.
  destruct (tokenizer g) as [tok|]; cbv beta iota; [|reflexivity].
  destruct (tokenizer_call tok txt) as [e|inputs]; cbv beta iota; [reflexivity|].
  destruct (model g) as [m|]; cbv beta iota; [|reflexivity].
  destruct (model_call m inputs) as [e|logits]; cbv beta iota; [reflexivity|].
  destruct (argmax (map (softmax lib) logits)) as [e|predictions];
    cbv beta iota; [reflexivity|].
  destruct (item predictions) as [e|prediction]; cbv beta iota; [reflexivity|].
  destruct (index (map (softmax lib) logits) 0) as [e|row];
    cbv beta iota; [reflexivity|].
  destruct (index row prediction) as [e|conf]; cbv beta iota; [reflexivity|].
  destruct (index row 1) as [e|risk]; reflexivity.
Qed.

(** X1: an exception of the tokenizer, or of the model, leaves the
    inference as it was raised; the [except] clause of the inference
    only logs it. *)
Theorem run_inference_reraises
    (lib : Libs) (g : Globals) (tok : Tokenizer) (m : Model) (txt : str) (e : exn) :
  tokenizer g = Some tok ->
  model g = Some m ->
  (tokenizer_call tok txt = inl e
   \/ exists inputs, tokenizer_call tok txt = inr inputs /\ model_call m inputs = inl e) ->
  _run_inference lib txt g = (inl e, g).
Proof.
  intros Htok Hm Hfail.
  unfold _run_inference, callable, try_except, bind, get, lift, raise, ret.
  rewrite Htok. cbv beta iota.
  destruct Hfail as [Hcall | [inputs [Hcall Hfwd]]]; rewrite Hcall; cbv beta iota.
  - reflexivity.
  - rewrite Hm. cbv beta iota. rewrite Hfwd. reflexivity.
Qed.

Lemma run_inference_reraises_witness :
  _run_inference sample_lib (lit "URL: https://www.google.com")
    {| model := Some sample_model; tokenizer := Some failing_tokenizer; device := Some cpu |}
  = (inl (RuntimeError (lit "text input must be of type str")),
     {| model := Some sample_model; tokenizer := Some failing_tokenizer; device := Some cpu |}).
Proof.
  apply (@run_inference_reraises sample_lib _ failing_tokenizer sample_model).
  - reflexivity.
  - reflexivity.
  - left. reflexivity.
Defined.

(** X2: a model with one output class makes the inference fail: the
    label and the confidence are found, but there is no entry at index
    1 for the risk score, and the [IndexError] is raised. *)
Theorem run_inference_one_class
    (lib : Libs) (g : Globals) (tok : Tokenizer) (m : Model)
    (txt : str) (inputs : Encoding) (logits : Tensor) (p : float) :
  tokenizer g = Some tok ->
  model g = Some m ->
  tokenizer_call tok txt = inr inputs ->
  model_call m inputs = inr logits ->
  map (softmax lib) logits = [[p]] ->
  exists msg, _run_inference lib txt g = (inl (IndexError msg), g).
Proof.
  intros Htok Hm Hcall Hfwd Hsoft.
  unfold _run_inference, callable, try_except, bind, get, lift, raise, ret.
  rewrite Htok, Hcall, Hm, Hfwd, Hsoft. eexists. reflexivity.
Qed.

Lemma run_inference_one_class_witness :
  exists msg,
    _run_inference sample_lib (lit "URL: https://www.google.com")
      {| model := Some one_class_model; tokenizer := Some sample_tokenizer;
         device := Some cpu |}
    = (inl (IndexError msg),
       {| model := Some one_class_model; tokenizer := Some sample_tokenizer;
          device := Some cpu |}).
Proof.
  apply (@run_inference_one_class sample_lib _ sample_tokenizer one_class_model
           (lit "URL: https://www.google.com")
           [("input_ids"%string, [map Z.of_N (lit "URL: https://www.google.com")])]
           [[f0_75]] f0_75);
    reflexivity.
Defined.

(** Two numbers, neither a NaN, compare. *)
Lemma SFcompare_defined (a b : float) :
  is_nan a = false -> is_nan b = false -> exists c, SFcompare a b = Some c.
Proof.
  destruct a as [sa|sa| |sa ma ea], b as [sb|sb| |sb mb eb];
    intros Ha Hb; try discriminate; cbn; eexists; reflexivity.
Qed.

Lemma compare_cont_Eq_refl (p : positive) : Pos.compare_cont Eq p p = Eq.
Proof. exact (Pos.compare_refl p). Qed.

(** A number that is not a NaN is below or at itself. *)
Lemma le_refl (a : float) : is_nan a = false -> le a a = true.
Proof.
  unfold le, SFleb.
  destruct a as [s|s| |s m e]; intros Ha; try discriminate; cbn.
  - reflexivity.
  - destruct s; reflexivity.
  - rewrite Z.compare_refl, compare_cont_Eq_refl. destruct s; reflexivity.
Qed.

Lemma gt_le (a b : float) : gt a b = true -> le b a = true.
Proof.
  unfold gt, le, SFltb, SFleb.
  destruct (SFcompare b a) as [[| |]|]; congruence.
Qed.

Lemma not_gt_le (a b : float) :
  is_nan a = false -> is_nan b = false -> gt a b = false -> le a b = true.
Proof.
  intros Ha Hb. unfold gt, le, SFltb, SFleb.
  rewrite (SFcompare_swap a b).
  destruct (SFcompare_defined a b Ha Hb) as [c ->].
  destruct c; cbn; congruence.
Qed.

(** The verdict on two probabilities that are not NaN: class 1 wins
    when it is greater, and the winner is at or above both. *)
Lemma verdict_of_two (p0 p1 : float) :
  is_nan p0 = false ->
  is_nan p1 = false ->
  beats p1 p0 = gt p1 p0
  /\ le p0 (if beats p1 p0 then p1 else p0) = true
  /\ le p1 (if beats p1 p0 then p1 else p0) = true.
Proof.
  intros H0 H1. unfold beats. rewrite H1. cbn [andb orb].
  split; [reflexivity|].
  destruct (gt p1 p0) eqn:Hgt.
  - split; [now apply gt_le | now apply le_refl].
  - split; [now apply le_refl | now apply not_gt_le].
Qed.

(** X3: for two probabilities that are not NaN, the verdict is phishing
    exactly when the probability of class 1 is greater than that of
    class 0 (a tie is legitimate), and the confidence is the larger of
    the two: both are below or at it. *)
Theorem run_inference_confidence_is_max
    (lib : Libs) (g : Globals) (tok : Tokenizer) (m : Model)
    (txt : str) (inputs : Encoding) (logits : Tensor) (p0 p1 : float) :
  tokenizer g = Some tok ->
  model g = Some m ->
  tokenizer_call tok txt = inr inputs ->
  model_call m inputs = inr logits ->
  map (softmax lib) logits = [[p0; p1]] ->
  is_nan p0 = false ->
  is_nan p1 = false ->
  exists (confidence : float),
    _run_inference lib txt g = (inr (gt p1 p0, confidence, p1), g)
    /\ (confidence = p0 \/ confidence = p1)
    /\ le p0 confidence = true
    /\ le p1 confidence = true.
Proof.
  intros Htok Hm Hcall Hfwd Hsoft H0 H1.
  rewrite (run_inference_two_classes lib g _ Htok Hm Hcall Hfwd Hsoft).
  destruct (verdict_of_two p0 p1 H0 H1) as [Hb [Hle0 Hle1]].
  exists (if beats p1 p0 then p1 else p0).
  split; [now rewrite Hb|]. split; [|split; assumption].
  destruct (beats p1 p0); [now right | now left].
Qed.

Lemma run_inference_confidence_is_max_witness :
  exists (confidence : float),
    _run_inference sample_lib (lit "URL: https://www.google.com") sample_loaded
    = (inr (gt f0_75 f0_25, confidence, f0_75), sample_loaded)
    /\ (confidence = f0_25 \/ confidence = f0_75)
    /\ le f0_25 confidence = true
    /\ le f0_75 confidence = true.
Proof.
  apply (@run_inference_confidence_is_max sample_lib sample_loaded
           sample_tokenizer sample_model
           (lit "URL: https://www.google.com")
           [("input_ids"%string, [map Z.of_N (lit "URL: https://www.google.com")])]
           [[f0_25; f0_75]] f0_25 f0_75);
    reflexivity.
Defined.

(** ** The request handler, continued *)

(** What the handler does once the inference has returned or raised. *)
Lemma analyze_phishing_loaded
    (lib : Libs) (request : PhishingAnalysisRequest) (g : Globals) :
  is_None (model g) || is_None (tokenizer g) = false ->
  analyze_phishing lib request g
  = match _run_inference lib (_prepare_text_for_analysis request) g with
    | (inl e, g') =>
        (inl (HTTPException 500 (lit "Analysis failed: " ++ str_of_exn lib e)), g')
    | (inr (is_phishing, confidence, risk_score), g') =>
        (inr {| is_phishing := is_phishing;
                confidence := confidence;
                risk_score := risk_score;
                message := _generate_response_message is_phishing confidence (url request);
                details :=
                  Some {| details_model_used := lit "ealvaradob/bert-finetuned-phishing";
                          details_analysis_text := _prepare_text_for_analysis request;
                          details_device := str_of_global_device (device g') |} |}, g')
    end.
Proof.
  intros Hloaded.
  unfold analyze_phishing, try_except, bind, get, raise, ret.
  rewrite Hloaded. cbv beta iota.
  destruct (_run_inference lib (_prepare_text_for_analysis request) g)
    as [[e|[[b c] r]] g']; reflexivity.
Qed.

(** X4: the handler of [/analyze] has two outcomes only: a response, or
    the error with status 500 whose detail is ["Analysis failed: "]
    followed by the text of the exception caught; no other status
    leaves it, and in both cases the globals are as they were. *)
Theorem analyze_phishing_outcomes
    (lib : Libs) (request : PhishingAnalysisRequest) (g : Globals) :
  (exists r : PhishingAnalysisResponse,
      analyze_phishing lib request g = (inr r, g))
  \/ (exists e : exn,
        analyze_phishing lib request g
        = (inl (HTTPException 500 (lit "Analysis failed: " ++ str_of_exn lib e)), g)).
Proof.
  destruct (is_None (model g) || is_None (tokenizer g)) eqn:Hloaded.
  - right. exists (HTTPException 503 (lit "Model not loaded")).
    unfold analyze_phishing, try_except, bind, get, raise.
    rewrite Hloaded. reflexivity.
  - rewrite (analyze_phishing_loaded lib request g Hloaded).
    pose proof (run_inference_keeps_globals lib (_prepare_text_for_analysis request) g)
      as Hkeep.
    destruct (_run_inference lib (_prepare_text_for_analysis request) g)
      as [[e|[[b c] r]] g']; cbn [snd] in Hkeep; subst g'.
    + right. exists e. reflexivity.
    + left. eexists. reflexivity.
Qed.

(** X5: on a loaded service whose model answers with two class
    probabilities, the response is put together from the three steps:
    the tokenizer is given the normalized text, the verdict is the one
    of the inference, the message is the formatter's for that verdict,
    and the details name the model, the normalized text that was scored
    and the device. *)
Theorem analyze_phishing_response
    (lib : Libs) (request : PhishingAnalysisRequest) (g : Globals)
    (tok : Tokenizer) (m : Model) (inputs : Encoding) (logits : Tensor)
    (p0 p1 : float) :
  tokenizer g = Some tok ->
  model g = Some m ->
  tokenizer_call tok (_prepare_text_for_analysis request) = inr inputs ->
  model_call m inputs = inr logits ->
  map (softmax lib) logits = [[p0; p1]] ->
  analyze_phishing lib request g
  = (inr {| is_phishing := beats p1 p0;
            confidence := if beats p1 p0 then p1 else p0;
            risk_score := p1;
            message := _generate_response_message (beats p1 p0)
                         (if beats p1 p0 then p1 else p0) (url request);
            details :=
              Some {| details_model_used := lit "ealvaradob/bert-finetuned-phishing";
                      details_analysis_text := _prepare_text_for_analysis request;
                      details_device := str_of_global_device (device g) |} |}, g).
Proof.
  intros Htok Hm Hcall Hfwd Hsoft.
  rewrite analyze_phishing_loaded by (rewrite Htok, Hm; reflexivity).
  rewrite (run_inference_two_classes lib g _ Htok Hm Hcall Hfwd Hsoft).
  reflexivity.
Qed.

Lemma analyze_phishing_response_witness :
  analyze_phishing sample_lib long_request sample_loaded
  = (inr {| is_phishing := true;
            confidence := f0_75;
            risk_score := f0_75;
            message := _generate_response_message true f0_75 (url long_request);
            details :=
              Some {| details_model_used := lit "ealvaradob/bert-finetuned-phishing";
                      details_analysis_text := _prepare_text_for_analysis long_request;
                      details_device := lit "cpu" |} |}, sample_loaded).
Proof.
  apply (@analyze_phishing_response sample_lib long_request sample_loaded
           sample_tokenizer sample_model
           [("input_ids"%string,
             [map Z.of_N (_prepare_text_for_analysis long_request)])]
           [[f0_25; f0_75]] f0_25 f0_75);
    reflexivity.
Defined.

(** X6: on a loaded service, an exception raised by the tokenizer or by
    the model while a request is analysed reaches the caller as the 500
    error whose detail is ["Analysis failed: "] followed by the text of
    that exception. *)
Theorem analyze_phishing_wraps_failure
    (lib : Libs) (request : PhishingAnalysisRequest) (g : Globals)
    (tok : Tokenizer) (m : Model) (e : exn) :
  tokenizer g = Some tok ->
  model g = Some m ->
  (tokenizer_call tok (_prepare_text_for_analysis request) = inl e
   \/ exists inputs,
        tokenizer_call tok (_prepare_text_for_analysis request) = inr inputs
        /\ model_call m inputs = inl e) ->
  analyze_phishing lib request g
  = (inl (HTTPException 500 (lit "Analysis failed: " ++ str_of_exn lib e)), g).
Proof.
  intros Htok Hm Hfail.
  rewrite analyze_phishing_loaded by (rewrite Htok, Hm; reflexivity).
  unfold _run_inference, callable, try_except, bind, get, lift, raise, ret.
  rewrite Htok. cbv beta iota.
  destruct Hfail as [Hcall | [inputs [Hcall Hfwd]]]; rewrite Hcall; cbv beta iota.
  - reflexivity.
  - rewrite Hm. cbv beta iota. rewrite Hfwd. reflexivity.
Qed.

Lemma analyze_phishing_wraps_failure_witness :
  analyze_phishing sample_lib url_only_request
    {| model := Some sample_model; tokenizer := Some failing_tokenizer; device := Some cpu |}
  = (inl (HTTPException 500 (lit "Analysis failed: text input must be of type str")),
     {| model := Some sample_model; tokenizer := Some failing_tokenizer; device := Some cpu |}).
Proof.
  apply (@analyze_phishing_wraps_failure sample_lib url_only_request _
           failing_tokenizer sample_model
           (RuntimeError (lit "text input must be of type str"))).
  - reflexivity.
  - reflexivity.
  - left. reflexivity.
Defined.

(** X7: whenever the device is set, the device named in the details of
    an analysis is the one the health check reports. *)
Theorem analysis_and_health_agree_on_device
    (lib : Libs) (request : PhishingAnalysisRequest) (g g' : Globals)
    (r : PhishingAnalysisResponse) (d : Device) :
  device g = Some d ->
  analyze_phishing lib request g = (inr r, g') ->
  exists (h : Health) (dt : Details),
    health_check g = (inr h, g)
    /\ details r = Some dt
    /\ details_device dt = health_device h
    /\ health_device h = str_of_device d.
Proof.
  intros Hdev Hok.
  destruct (is_None (model g) || is_None (tokenizer g)) eqn:Hloaded.
  - unfold analyze_phishing, try_except, bind, get, raise in Hok.
    rewrite Hloaded in Hok. discriminate Hok.
  - rewrite (analyze_phishing_loaded lib request g Hloaded) in Hok.
    pose proof (run_inference_keeps_globals lib (_prepare_text_for_analysis request) g)
      as Hkeep.
    destruct (_run_inference lib (_prepare_text_for_analysis request) g)
      as [[e|[[b c] rs]] g'']; cbn [snd] in Hkeep; subst g''; [discriminate Hok|].
    injection Hok as <- <-.
    eexists. eexists. split; [apply health_check_run|].
    cbn. rewrite Hdev. cbn. auto.
Qed.

Lemma analysis_and_health_agree_on_device_witness :
  exists (h : Health) (dt : Details),
    health_check sample_loaded = (inr h, sample_loaded)
    /\ details {| is_phishing := true;
                  confidence := f0_75;
                  risk_score := f0_75;
                  message := _generate_response_message true f0_75 (url url_only_request);
                  details :=
                    Some {| details_model_used := lit "ealvaradob/bert-finetuned-phishing";
                            details_analysis_text :=
                              _prepare_text_for_analysis url_only_request;
                            details_device := lit "cpu" |} |} = Some dt
    /\ details_device dt = health_device h
    /\ health_device h = str_of_device cpu.
Proof.
  apply (@analysis_and_health_agree_on_device sample_lib url_only_request
           sample_loaded sample_loaded _ cpu);
    reflexivity.
Defined.

(** ** Model lifecycle, continued *)

(** X8: a load that fails raises the exception of the library call that
    failed, as it is; the device is set by then, the tokenizer is set
    unless it was its own loading that failed, and the model is set
    only when it was the move to the device that failed. *)
Theorem load_model_failure (lib : Libs) (g g' : Globals) (e : exn) :
  load_model lib g = (inl e, g') ->
  device g' = Some (if cuda_is_available lib then cuda else cpu)
  /\ ((tokenizer_from_pretrained lib model_name = inl e
       /\ tokenizer g' = tokenizer g /\ model g' = model g)
      \/ (exists tok,
            tokenizer_from_pretrained lib model_name = inr tok
            /\ model_from_pretrained lib model_name = inl e
            /\ tokenizer g' = Some tok /\ model g' = model g)
      \/ (exists tok m,
            tokenizer_from_pretrained lib model_name = inr tok
            /\ model_from_pretrained lib model_name = inr m
            /\ model_to m (if cuda_is_available lib then cuda else cpu) = inl e
            /\ tokenizer g' = Some tok /\ model g' = Some m)).
Proof.
  unfold load_model, try_except, bind, get, put, lift, ret, raise.
  destruct (tokenizer_from_pretrained lib model_name) as [e1|tok]; cbv beta iota.
  - intros H. injection H as <- <-. split; [reflexivity|]. left. auto.
  - destruct (model_from_pretrained lib model_name) as [e2|m]; cbv beta iota.
    + intros H. injection H as <- <-. split; [reflexivity|].
      right. left. exists tok. auto.
    + cbn [model tokenizer device].
      destruct (model_to m (if cuda_is_available lib then cuda else cpu))
        as [e3|[]] eqn:Hto; cbv beta iota.
      * intros H. injection H as <- <-. split; [reflexivity|].
        right. right. exists tok, m. auto.
      * discriminate.
Qed.

Lemma load_model_failure_witness :
  device {| model := None; tokenizer := Some sample_tokenizer; device := Some cpu |}
  = Some (if cuda_is_available lib_without_model then cuda else cpu)
  /\ ((tokenizer_from_pretrained lib_without_model model_name
       = inl (OSError (lit "model not found"))
       /\ tokenizer {| model := None; tokenizer := Some sample_tokenizer; device := Some cpu |}
          = tokenizer initial
       /\ model {| model := None; tokenizer := Some sample_tokenizer; device := Some cpu |}
          = model initial)
      \/ (exists tok,
            tokenizer_from_pretrained lib_without_model model_name = inr tok
            /\ model_from_pretrained lib_without_model model_name
               = inl (OSError (lit "model not found"))
            /\ tokenizer {| model := None; tokenizer := Some sample_tokenizer;
                            device := Some cpu |} = Some tok
            /\ model {| model := None; tokenizer := Some sample_tokenizer;
                        device := Some cpu |} = model initial)
      \/ (exists tok m,
            tokenizer_from_pretrained lib_without_model model_name = inr tok
            /\ model_from_pretrained lib_without_model model_name = inr m
            /\ model_to m (if cuda_is_available lib_without_model then cuda else cpu)
               = inl (OSError (lit "model not found"))
            /\ tokenizer {| model := None; tokenizer := Some sample_tokenizer;
                            device := Some cpu |} = Some tok
            /\ model {| model := None; tokenizer := Some sample_tokenizer;
                        device := Some cpu |} = Some m)).
Proof.
  apply (@load_model_failure lib_without_model initial). reflexivity.
Defined.

(** X9: in every state that the startup hook leaves behind, whether it
    succeeded or not, a model that is set comes with its tokenizer; so
    the flag of the health check and the readiness test of the
    analysis, which also looks at the tokenizer, say the same. *)
Theorem health_flag_is_readiness
    (lib : Libs) (outcome : exn + unit) (g' : Globals) :
  load_model lib initial = (outcome, g') ->
  exists h : Health,
    health_check g' = (inr h, g')
    /\ health_model_loaded h = negb (is_None (model g') || is_None (tokenizer g')).
Proof.
  intros Hload. eexists. split; [apply health_check_run|]. cbn.
  revert Hload.
  unfold load_model, try_except, bind, get, put, lift, ret, raise.
  destruct (tokenizer_from_pretrained lib model_name) as [e1|tok]; cbv beta iota.
  - intros H. injection H as _ <-. reflexivity.
  - destruct (model_from_pretrained lib model_name) as [e2|m]; cbv beta iota.
    + intros H. injection H as _ <-. reflexivity.
    + cbn [model tokenizer device].
      destruct (model_to m (if cuda_is_available lib then cuda else cpu)) as [e3|[]];
        cbv beta iota; intros H; injection H as _ <-; reflexivity.
Qed.

Lemma health_flag_is_readiness_witness :
  exists h : Health,
    health_check {| model := Some immovable_model;
                    tokenizer := Some sample_tokenizer;
                    device := Some cuda |}
    = (inr h, {| model := Some immovable_model;
                 tokenizer := Some sample_tokenizer;
                 device := Some cuda |})
    /\ health_model_loaded h
       = negb (is_None (model {| model := Some immovable_model;
                                 tokenizer := Some sample_tokenizer;
                                 device := Some cuda |})
               || is_None (tokenizer {| model := Some immovable_model;
                                        tokenizer := Some sample_tokenizer;
                                        device := Some cuda |})).
Proof.
  apply (@health_flag_is_readiness lib_with_immovable_model
           (inl (RuntimeError (lit "CUDA out of memory")))).
  reflexivity.
Defined.

(** ** The text normalizer, continued *)

Lemma join_nonempty_head (sep p : str) (rest : list str) :
  p <> [] -> join sep (p :: rest) <> [].
Proof.
  intros Hp Hj. destruct (join_head sep p rest) as [tail Ht].
  rewrite Ht in Hj. destruct p; [congruence | discriminate Hj].
Qed.

(** X10: the normalized text is empty exactly when the URL is empty and
    neither a title nor a text is present. *)
Theorem normalized_empty_iff (request : PhishingAnalysisRequest) :
  _prepare_text_for_analysis request = []
  <-> url request = []
      /\ present (title request) = false
      /\ present (text request) = false.
Proof.
  destruct request as [u x t]. cbn [url text title]. split.
  - intros Hempty. destruct u as [|c u].
    + rewrite prepare_empty_url in Hempty.
      unfold present, truthy_opt, title_segment, content_segment in *.
      split; [reflexivity|].
      destruct t as [[|a t]|]; destruct x as [[|b x]|];
        cbn [truthy app] in *; try (split; reflexivity);
        exfalso; revert Hempty; apply join_nonempty_head; discriminate.
    + exfalso. revert Hempty.
      rewrite prepare_segments by discriminate.
      unfold segments_spec. cbn [url app].
      apply join_nonempty_head. discriminate.
  - intros [-> [Ht Hx]]. rewrite prepare_empty_url.
    unfold present, truthy_opt, title_segment, content_segment in *.
    destruct t as [t|]; [rewrite Ht|]; (destruct x as [x|]; [rewrite Hx|]);
      reflexivity.
Qed.

(** X11: the normalizer reads no more than the first 1000 characters of
    the text: two texts that agree on them give the same normalized
    text. *)
Theorem normalized_reads_1000_characters (u x y : str) (t : option str) :
  firstn 1000 x = firstn 1000 y ->
  _prepare_text_for_analysis {| url := u; text := Some x; title := t |}
  = _prepare_text_for_analysis {| url := u; text := Some y; title := t |}.
Proof.
  intros Hxy.
  assert (Htruthy : truthy x = truthy y).
  { destruct x as [|a x], y as [|b y]; try reflexivity;
      rewrite ?firstn_cons, ?firstn_nil in Hxy; discriminate Hxy. }
  unfold _prepare_text_for_analysis. cbn [url text title].
  rewrite !content_of_code, Htruthy, Hxy. reflexivity.
Qed.

Lemma normalized_reads_1000_characters_witness :
  _prepare_text_for_analysis
    {| url := lit "https://www.google.com"; text := Some long_text; title := None |}
  = _prepare_text_for_analysis
      {| url := lit "https://www.google.com";
         text := Some (repeat 97%N 1000);
         title := None |}.
Proof.
  apply (@normalized_reads_1000_characters
           (lit "https://www.google.com") long_text (repeat 97%N 1000) None).
  vm_compute. reflexivity.
Defined.

(** X12: the normalized text is bounded by the lengths of the URL and of
    the title, which are taken whole, and by 1000 characters of text,
    plus the 23 characters of the three labels and the two spaces. *)
Theorem normalized_length_bound (request : PhishingAnalysisRequest) :
  len (_prepare_text_for_analysis request)
  <= len (url request) + field_len (title request)
     + Nat.min (field_len (text request)) 1000 + 23.
Proof.
  destruct request as [u x t]. cbn [url text title].
  destruct u as [|c u].
  - rewrite prepare_empty_url.
    unfold title_segment, content_segment, field_len, len.
    destruct t as [[|a t]|]; destruct x as [[|b x]|];
      cbn [truthy app join];
      rewrite ?length_app, ?length_firstn;
      cbn [List.length lit]; lia.
  - rewrite prepare_segments by discriminate.
    unfold segments_spec, title_segment, content_segment, field_len, len.
    cbn [url text title].
    destruct t as [[|a t]|]; destruct x as [[|b x]|];
      cbn [truthy app join];
      rewrite ?length_app, ?length_firstn;
      cbn [List.length lit]; lia.
Qed.

(** X13: a text that is present always ends the normalized text, behind
    its label, whatever the URL and the title are, and a text of at
    most 1000 characters is there in full. *)
Theorem normalized_ends_with_content (u x : str) (t : option str) :
  x <> [] ->
  (exists before,
      _prepare_text_for_analysis {| url := u; text := Some x; title := t |}
      = before ++ lit "Content: " ++ firstn 1000 x)
  /\ (len x <= 1000 -> firstn 1000 x = x).
Proof.
  intros Hx. split.
  - assert (Hseg : content_segment (Some x) = [lit "Content: " ++ firstn 1000 x]).
    { unfold content_segment. destruct x; [congruence | reflexivity]. }
    destruct u as [|c u].
    + rewrite prepare_empty_url, Hseg.
      apply (join_last (lit " ") (lit "Content: " ++ firstn 1000 x) (title_segment t)).
    + rewrite prepare_segments by discriminate.
      unfold segments_spec. cbn [url text title]. rewrite Hseg, app_assoc.
      apply (join_last (lit " ") (lit "Content: " ++ firstn 1000 x)
               ([lit "URL: " ++ c :: u] ++ title_segment t)).
  - intros Hlen. apply firstn_all2. exact Hlen.
Qed.

Lemma normalized_ends_with_content_witness :
  (exists before,
      _prepare_text_for_analysis
        {| url := []; text := Some (lit "Click here now!"); title := Some (lit "Hi") |}
      = before ++ lit "Content: " ++ firstn 1000 (lit "Click here now!"))
  /\ (len (lit "Click here now!") <= 1000
      -> firstn 1000 (lit "Click here now!") = lit "Click here now!").
Proof.
  apply (@normalized_ends_with_content [] (lit "Click here now!") (Some (lit "Hi"))).
  discriminate.
Defined.

(** ** The alternate service, continued *)

(** X14: before the startup hook has run, or when it failed to load the
    tokenizer, [app] has no attribute [tokenizer]; the handler of
    [/predict] turns the [AttributeError] into the 500 error with its
    text. *)
Theorem predict_before_startup
    (lib : Libs) (request : MlInference.PredictRequest) (a : MlInference.App) :
  MlInference.app_tokenizer a = None ->
  MlInference.predict lib request a
  = (inl (HTTPException 500 (lit "'FastAPI' object has no attribute 'tokenizer'")), a).
Proof.
  intros Hnone.
  unfold MlInference.predict, MlInference.getattr,
    try_except, bind, get, lift, raise, ret.
  rewrite Hnone. reflexivity.
Qed.

Lemma predict_before_startup_witness :
  MlInference.predict sample_lib
    {| MlInference.text := lit "Click here now!" |}
    {| MlInference.app_tokenizer := None; MlInference.app_model := None |}
  = (inl (HTTPException 500 (lit "'FastAPI' object has no attribute 'tokenizer'")),
     {| MlInference.app_tokenizer := None; MlInference.app_model := None |}).
Proof.
  apply (@predict_before_startup sample_lib). reflexivity.
Defined.

(** ** The dataset preparation *)

Lemma lstrip_head (s : str) (c : char) (rest : str) :
  PrepareCsv.lstrip s = c :: rest -> PrepareCsv.is_space c = false.
Proof.
  induction s as [|a s IH]; cbn [PrepareCsv.lstrip]; [discriminate|].
  destruct (PrepareCsv.is_space a) eqn:Ha; [exact IH|].
  intros H. injection H as <- _. exact Ha.
Qed.

(** What [lstrip] returns is the end of its argument. *)
Lemma lstrip_suffix (s : str) : exists pre, s = pre ++ PrepareCsv.lstrip s.
Proof.
  induction s as [|a s [pre IH]]; cbn [PrepareCsv.lstrip].
  - exists []. reflexivity.
  - destruct (PrepareCsv.is_space a).
    + exists (a :: pre). cbn [app]. now rewrite <- IH.
    + exists []. reflexivity.
Qed.

(** What [rstrip] returns is the beginning of its argument. *)
Lemma rstrip_prefix (s : str) : exists post, s = PrepareCsv.rstrip s ++ post.
Proof.
  unfold PrepareCsv.rstrip. destruct (lstrip_suffix (rev s)) as [pre H].
  exists (rev pre). rewrite <- rev_app_distr, <- H. now rewrite rev_involutive.
Qed.

Lemma strip_first (s : str) (c : char) (rest : str) :
  PrepareCsv.strip s = c :: rest -> PrepareCsv.is_space c = false.
Proof.
  unfold PrepareCsv.strip. intros H.
  destruct (rstrip_prefix (PrepareCsv.lstrip s)) as [post Hp].
  rewrite H in Hp. cbn [app] in Hp.
  exact (@lstrip_head s c _ Hp).
Qed.

Lemma strip_last (s : str) (front : str) (c : char) :
  PrepareCsv.strip s = front ++ [c] -> PrepareCsv.is_space c = false.
Proof.
  unfold PrepareCsv.strip, PrepareCsv.rstrip. intros H.
  apply (f_equal (@rev char)) in H.
  rewrite rev_involutive, rev_app_distr in H. cbn [rev app] in H.
  exact (@lstrip_head _ c _ H).
Qed.

(** X15: every URL taken from the feed is the stripped form of one of its
    lines, is not empty, and neither begins nor ends with a whitespace
    character; a line of whitespace only contributes nothing. *)
Theorem phishing_urls_clean (lines : list str) (u : str) :
  In u (PrepareCsv.phishing_urls lines) ->
  (exists line, In line lines /\ u = PrepareCsv.strip line)
  /\ u <> []
  /\ (forall c rest, u = c :: rest -> PrepareCsv.is_space c = false)
  /\ (forall front c, u = front ++ [c] -> PrepareCsv.is_space c = false).
Proof.
  unfold PrepareCsv.phishing_urls. intros Hin.
  apply in_map_iff in Hin. destruct Hin as [line [<- Hline]].
  apply filter_In in Hline. destruct Hline as [Hline Htruthy].
  split; [exists line; auto|]. split.
  - destruct (PrepareCsv.strip line); [discriminate Htruthy | discriminate].
  - split.
    + intros c rest Hu. exact (@strip_first line c rest Hu).
    + intros front c Hu. exact (@strip_last line front c Hu).
Qed.

Lemma phishing_urls_clean_witness :
  (exists line, In line sample_feed
                /\ lit "http://evil.example/login" = PrepareCsv.strip line)
  /\ lit "http://evil.example/login" <> []
  /\ (forall c rest, lit "http://evil.example/login" = c :: rest
                     -> PrepareCsv.is_space c = false)
  /\ (forall front c, lit "http://evil.example/login" = front ++ [c]
                      -> PrepareCsv.is_space c = false).
Proof.
  apply (@phishing_urls_clean sample_feed (lit "http://evil.example/login")).
  vm_compute. left. reflexivity.
Defined.

Lemma mem_true_iff (u : str) (l : list str) :
  PrepareCsv.mem u l = true <-> In u l.
Proof.
  unfold PrepareCsv.mem. destruct (in_dec PrepareCsv.str_eq_dec u l); split;
    intros H; try assumption; try reflexivity; try discriminate; contradiction.
Qed.

Lemma in_benign_urls (domains phishing : list str) (u : str) :
  In u (PrepareCsv.benign_urls domains phishing)
  <-> (exists d, In d domains /\ u = lit "http://" ++ d ++ lit "/")
      /\ ~ In u phishing.
Proof.
  unfold PrepareCsv.benign_urls, PrepareCsv.set_difference,
    PrepareCsv.benign_candidates.
  rewrite nodup_In, filter_In, in_map_iff, negb_true_iff.
  split.
  - intros [[d [Hd Hin]] Hmem]. split; [exists d; auto|].
    intros Hp. apply mem_true_iff in Hp. congruence.
  - intros [[d [Hin Hd]] Hnot]. split; [exists d; auto|].
    destruct (PrepareCsv.mem u phishing) eqn:E; [|reflexivity].
    apply mem_true_iff in E. contradiction.
Qed.

(** X16: a benign URL is ["http://" + d + "/"] for a [d] of the benign
    list, and is not among the phishing URLs; every such URL is kept,
    and kept once. *)
Theorem benign_urls_spec (domains phishing : list str) :
  (forall u,
      In u (PrepareCsv.benign_urls domains phishing)
      <-> (exists d, In d domains /\ u = lit "http://" ++ d ++ lit "/")
          /\ ~ In u phishing)
  /\ NoDup (PrepareCsv.benign_urls domains phishing).
Proof.
  split; [intros u; apply in_benign_urls|].
  unfold PrepareCsv.benign_urls, PrepareCsv.set_difference. apply NoDup_nodup.
Qed.

Lemma in_frame (urls : list str) (l l' : Z) (u : str) :
  In (u, l') (PrepareCsv.frame urls l) <-> l' = l /\ In u urls.
Proof.
  unfold PrepareCsv.frame. rewrite in_map_iff. split.
  - intros [v [Hv Hin]]. injection Hv as <- <-. auto.
  - intros [-> Hin]. exists u. auto.
Qed.

(** X17: whatever order the shuffle gives, the rows of the data set are
    the phishing URLs with label 1 and the benign URLs with label 0,
    one row for each entry of the two lists; no text carries both
    labels. *)
Theorem dataset_labels
    (sample : list PrepareCsv.Row -> list PrepareCsv.Row)
    (lines domains : list str) :
  (forall rows, Permutation (sample rows) rows) ->
  (forall u l,
      In (u, l) (PrepareCsv.dataset sample lines domains)
      <-> (l = 1%Z /\ In u (PrepareCsv.phishing_urls lines))
          \/ (l = 0%Z
              /\ In u (PrepareCsv.benign_urls domains (PrepareCsv.phishing_urls lines))))
  /\ (forall u,
        In (u, 1%Z) (PrepareCsv.dataset sample lines domains) ->
        In (u, 0%Z) (PrepareCsv.dataset sample lines domains) -> False)
  /\ List.length (PrepareCsv.dataset sample lines domains)
     = List.length (PrepareCsv.phishing_urls lines)
       + List.length (PrepareCsv.benign_urls domains (PrepareCsv.phishing_urls lines)).
Proof.
  intros Hperm.
  assert (Hrows : forall u l,
             In (u, l) (PrepareCsv.dataset sample lines domains)
             <-> (l = 1%Z /\ In u (PrepareCsv.phishing_urls lines))
                 \/ (l = 0%Z
                     /\ In u (PrepareCsv.benign_urls domains
                                (PrepareCsv.phishing_urls lines)))).
  { intros u l. unfold PrepareCsv.dataset. cbv zeta. split.
    - intros Hin. apply (Permutation_in _ (Hperm _)) in Hin.
      apply in_app_or in Hin. destruct Hin as [Hin|Hin];
        apply in_frame in Hin; auto.
    - intros Hin. apply (Permutation_in _ (Permutation_sym (Hperm _))).
      apply in_or_app. destruct Hin as [Hin|Hin]; [left|right];
        apply in_frame; exact Hin. }
  split; [exact Hrows|]. split.
  - intros u H1 H0. apply Hrows in H1. apply Hrows in H0.
    destruct H1 as [[_ Hp]|[Habs _]]; [|discriminate Habs].
    destruct H0 as [[Habs _]|[_ Hb]]; [discriminate Habs|].
    apply in_benign_urls in Hb. destruct Hb as [_ Hnot]. contradiction.
  - unfold PrepareCsv.dataset. cbv zeta.
    rewrite (Permutation_length (Hperm _)), length_app.
    unfold PrepareCsv.frame. now rewrite !length_map.
Qed.

Lemma dataset_labels_witness :
  PrepareCsv.dataset (@rev PrepareCsv.Row) sample_feed sample_domains
  = [(lit "http://news.example/", 0%Z);
     (lit "http://shop.example/", 1%Z);
     (lit "http://evil.example/login", 1%Z)]
  /\ (forall u,
        In (u, 1%Z) (PrepareCsv.dataset (@rev PrepareCsv.Row) sample_feed sample_domains) ->
        In (u, 0%Z) (PrepareCsv.dataset (@rev PrepareCsv.Row) sample_feed sample_domains) ->
        False).
Proof.
  split.
  - vm_compute. reflexivity.
  - apply (@dataset_labels (@rev PrepareCsv.Row) sample_feed sample_domains).
    intros rows. apply Permutation_sym, Permutation_rev.
Defined.

(** ** The verdict formatter, continued *)

Ltac compare_cases :=
  repeat match goal with
    | |- context [Z.compare ?a ?b] => destruct (Z.compare_spec a b)
    | |- context [Pos.compare_cont Eq ?a ?b] => destruct (compare_cont_Eq_spec a b)
    end.

(** What is at or above a number above [t] is above [t]. *)
Lemma gt_le_trans (t a b : float) :
  gt a t = true -> le a b = true -> gt b t = true.
Proof.
  unfold gt, le, SFltb, SFleb.
  destruct t as [st|st| |st mt et], a as [sa|sa| |sa ma ea], b as [sb|sb| |sb mb eb];
    unfold SFcompare; try (intros; congruence);
    try (destruct st; intros; congruence);
    try (destruct sa; intros; congruence);
    try (destruct sb; intros; congruence);
    try (destruct st, sa; intros; congruence);
    try (destruct st, sb; intros; congruence);
    try (destruct sa, sb; intros; congruence);
    try (destruct st, sa, sb; intros; congruence).
  all: destruct st, sa, sb; try (intros; congruence).
  all: compare_cases; cbn [CompOpp];
    try (intros; congruence); try (intros; exfalso; lia).
Qed.

Lemma gt_0_8_gt_0_6 (c : float) : gt c f0_8 = true -> gt c f0_6 = true.
Proof.
  intros H. apply (@gt_le_trans f0_6 f0_8 c).
  - reflexivity.
  - apply gt_le. exact H.
Qed.

(** X18: a message opens with the check mark exactly when the verdict is
    legitimate and the confidence is above 0.6; every other message,
    the UNCERTAIN one of a legitimate verdict included, opens with the
    warning sign. *)
Theorem check_mark_iff_confident_legitimate
    (is_phishing : bool) (c : float) (u : str) :
  starts_with CHECK_MARK (_generate_response_message is_phishing c u)
  = negb is_phishing && gt c f0_6
  /\ starts_with WARNING_SIGN (_generate_response_message is_phishing c u)
     = negb (negb is_phishing && gt c f0_6).
Proof.
  unfold _generate_response_message.
  destruct is_phishing; destruct (gt c f0_8) eqn:H8;
    try (rewrite (gt_0_8_gt_0_6 c H8));
    try (destruct (gt c f0_6)); split; reflexivity.
Qed.

(** X19: the tier grows with the confidence: of two verdicts with the
    same label, the one with the larger confidence is never in a lower
    tier. *)
Theorem tier_grows_with_confidence
    (is_phishing : bool) (c1 c2 : float) (u1 u2 : str) (t1 t2 : Tier) :
  le c1 c2 = true ->
  message_tier (_generate_response_message is_phishing c1 u1) = Some t1 ->
  message_tier (_generate_response_message is_phishing c2 u2) = Some t2 ->
  tier_rank t1 <= tier_rank t2.
Proof.
  intros Hle. rewrite !generate_tier. intros H1 H2.
  injection H1 as <-. injection H2 as <-.
  destruct (gt c1 f0_8) eqn:H18.
  - rewrite (gt_le_trans _ _ _ H18 Hle). destruct is_phishing; cbn; lia.
  - destruct (gt c1 f0_6) eqn:H16.
    + rewrite (gt_le_trans _ _ _ H16 Hle).
      destruct is_phishing, (gt c2 f0_8); cbn; lia.
    + destruct is_phishing, (gt c2 f0_8), (gt c2 f0_6); cbn; lia.
Qed.

Lemma tier_grows_with_confidence_witness :
  tier_rank SUSPICIOUS <= tier_rank HIGH_RISK.
Proof.
  apply (@tier_grows_with_confidence true f0_7 f0_95 [] []); reflexivity.
Defined.

(** ** Floats and their exact values *)

Local Open Scope Z_scope.

Lemma pow2_pos_pred (d : positive) : 2 ^ Zpos d = 2 * 2 ^ (Zpos d - 1).
Proof.
  replace (Zpos d) with (Z.succ (Zpos d - 1)) at 1 by lia.
  apply Z.pow_succ_r. lia.
Qed.

Lemma digits2_bounds (m : positive) :
  (2 ^ (Zpos (digits2_pos m) - 1) <= Zpos m < 2 ^ Zpos (digits2_pos m))%Z.
Proof.
  induction m as [m IH|m IH|]; cbn [digits2_pos].
  - rewrite Pos2Z.inj_succ, (Pos2Z.inj_xI m), Z.pow_succ_r by lia.
    replace (Z.succ (Zpos (digits2_pos m)) - 1) with (Zpos (digits2_pos m)) by lia.
    rewrite (pow2_pos_pred (digits2_pos m)) in *.
    revert IH. generalize (2 ^ (Z.pos (digits2_pos m) - 1)). intros A IH. lia.
  - rewrite Pos2Z.inj_succ, (Pos2Z.inj_xO m), Z.pow_succ_r by lia.
    replace (Z.succ (Zpos (digits2_pos m)) - 1) with (Zpos (digits2_pos m)) by lia.
    rewrite (pow2_pos_pred (digits2_pos m)) in *.
    revert IH. generalize (2 ^ (Z.pos (digits2_pos m) - 1)). intros A IH. lia.
  - cbn. lia.
Qed.

Lemma magnitude_scaled (m : positive) (e k : Z) :
  0 <= k -> 0 <= e + k ->
  (magnitude m e * inject_Z (2 ^ k) == inject_Z (Zpos m * 2 ^ (e + k)))%Q.
Proof.
  intros Hk Hek. unfold magnitude, value.
  destruct e as [|p|p].
  - rewrite Z.add_0_l. rewrite <- inject_Z_mult. reflexivity.
  - rewrite <- inject_Z_mult. rewrite Z.pow_add_r by lia.
    rewrite Z.mul_assoc. reflexivity.
  - unfold Qeq, Qmult, inject_Z. cbn [Qnum Qden].
    rewrite Pos.mul_1_r, Z.mul_1_r, Pos2Z.inj_pow.
    replace k with ((Zneg p + k) + Zpos p) at 1 by lia.
    rewrite Z.pow_add_r by lia. ring.
Qed.

Lemma canonical_facts (m : positive) (e : Z) :
  bounded prec emax m e = true ->
  -1074 <= e
  /\ Zpos (digits2_pos m) <= 53
  /\ (-1074 < e -> Zpos (digits2_pos m) = 53).
Proof.
  unfold bounded, canonical_mantissa, fexp, emin, prec, emax.
  intros H. apply andb_true_iff in H. destruct H as [H _].
  apply Z.eqb_eq in H. lia.
Qed.

Lemma magnitude_le_scaled (m1 m2 : positive) (e1 e2 k : Z) :
  0 <= k -> 0 <= e1 + k -> 0 <= e2 + k ->
  Zpos m1 * 2 ^ (e1 + k) <= Zpos m2 * 2 ^ (e2 + k) ->
  (magnitude m1 e1 <= magnitude m2 e2)%Q.
Proof.
  intros Hk H1 H2 Hle.
  apply Qmult_le_r with (z := inject_Z (2 ^ k)).
  - change 0%Q with (inject_Z 0). rewrite <- Zlt_Qlt. apply Z.pow_pos_nonneg; lia.
  - rewrite !magnitude_scaled by assumption. rewrite <- Zle_Qle. exact Hle.
Qed.

Lemma magnitude_pos (m : positive) (e : Z) : (0 < magnitude m e)%Q.
Proof.
  unfold magnitude, value. destruct e as [|p|p]; unfold Qlt; cbn [Qnum Qden inject_Z].
  - lia.
  - rewrite !Z.mul_1_r. apply Z.mul_pos_pos; [lia|].
    apply Z.pow_pos_nonneg; lia.
  - lia.
Qed.

Lemma magnitude_le_mantissa (m1 m2 : positive) (e : Z) :
  (m1 <= m2)%positive -> (magnitude m1 e <= magnitude m2 e)%Q.
Proof.
  intros Hm.
  apply magnitude_le_scaled with (k := Z.max 0 (- e)); try lia.
  apply Z.mul_le_mono_nonneg_r; [apply Z.pow_nonneg; lia | lia].
Qed.

Lemma magnitude_le_exponent (m1 m2 : positive) (e1 e2 : Z) :
  bounded prec emax m1 e1 = true ->
  bounded prec emax m2 e2 = true ->
  e1 < e2 ->
  (magnitude m1 e1 <= magnitude m2 e2)%Q.
Proof.
  intros H1 H2 Hlt.
  destruct (canonical_facts m1 e1 H1) as [Hmin1 [Hd1 _]].
  destruct (canonical_facts m2 e2 H2) as [_ [_ Hd2]].
  assert (He2 : -1074 < e2) by lia.
  specialize (Hd2 He2).
  pose proof (digits2_bounds m1) as [_ Hm1].
  pose proof (digits2_bounds m2) as [Hm2 _].
  rewrite Hd2 in Hm2.
  assert (Hm1' : Zpos m1 < 2 ^ 53).
  { eapply Z.lt_le_trans; [exact Hm1|]. apply Z.pow_le_mono_r; lia. }
  rewrite (pow2_pos_pred 53) in Hm1'.
  apply magnitude_le_scaled with (k := 1074); try lia.
  replace (e2 + 1074) with ((e1 + 1074) + (e2 - e1)) by lia.
  rewrite (Z.pow_add_r 2 (e1 + 1074) (e2 - e1)) by lia.
  assert (HP : 0 < 2 ^ (e1 + 1074)) by (apply Z.pow_pos_nonneg; lia).
  assert (HJ : 2 ^ 1 <= 2 ^ (e2 - e1)) by (apply Z.pow_le_mono_r; lia).
  rewrite Z.pow_1_r in HJ.
  assert (Hm : Zpos m1 <= 2 * Zpos m2) by lia.
  apply Z.le_trans with (2 * Zpos m2 * 2 ^ (e1 + 1074)).
  - apply Z.mul_le_mono_nonneg_r; lia.
  - replace (2 * Zpos m2 * 2 ^ (e1 + 1074))
      with (Zpos m2 * (2 ^ (e1 + 1074) * 2)) by ring.
    apply Z.mul_le_mono_nonneg_l; [lia|].
    apply Z.mul_le_mono_nonneg_l; lia.
Qed.

(** On finite numbers in the format, the order of the floats is the
    order of their values. *)
Lemma value_le (a b : float) :
  valid_binary prec emax a = true ->
  valid_binary prec emax b = true ->
  is_finite a = true ->
  is_finite b = true ->
  le a b = true ->
  (value a <= value b)%Q.
Proof.
  unfold le, SFleb.
  destruct a as [sa|sa| |sa ma ea], b as [sb|sb| |sb mb eb];
    intros Va Vb Fa Fb; try discriminate Fa; try discriminate Fb;
    unfold SFcompare; cbn [valid_binary] in *.
  - intros _. apply Qle_refl.
  - destruct sb; [discriminate|]. intros _.
    apply Qlt_le_weak. change (0 < magnitude mb eb)%Q. apply magnitude_pos.
  - destruct sa; [|discriminate]. intros _.
    change (- magnitude ma ea <= - 0)%Q.
    apply Qopp_le_compat. apply Qlt_le_weak. apply magnitude_pos.
  - change (value (S754_finite sa ma ea))
      with (if sa then - magnitude ma ea else magnitude ma ea)%Q.
    change (value (S754_finite sb mb eb))
      with (if sb then - magnitude mb eb else magnitude mb eb)%Q.
    pose proof (magnitude_pos ma ea) as Hpa.
    pose proof (magnitude_pos mb eb) as Hpb.
    destruct sa, sb.
    + destruct (Z.compare_spec ea eb) as [He|He|He]; try discriminate.
      * subst eb. destruct (compare_cont_Eq_spec ma mb) as [Hm|Hm|Hm];
          cbn [CompOpp]; try discriminate; intros _;
          apply Qopp_le_compat; apply magnitude_le_mantissa; lia.
      * intros _. apply Qopp_le_compat.
        apply magnitude_le_exponent; assumption.
    + intros _. apply Qle_trans with (- 0)%Q.
      * apply Qopp_le_compat. apply Qlt_le_weak. exact Hpa.
      * apply Qlt_le_weak. exact Hpb.
    + discriminate.
    + destruct (Z.compare_spec ea eb) as [He|He|He]; try discriminate.
      * subst eb. destruct (compare_cont_Eq_spec ma mb) as [Hm|Hm|Hm];
          try discriminate; intros _; apply magnitude_le_mantissa; lia.
      * intros _. apply magnitude_le_exponent; assumption.
Qed.

Local Close Scope Z_scope.

Lemma finite_not_nan (a : float) : is_finite a = true -> is_nan a = false.
Proof. destruct a; intros H; try discriminate H; reflexivity. Qed.

Lemma Qdouble (x : Q) : (2 * x == x + x)%Q.
Proof. ring. Qed.

(** X20: for two finite probabilities of the binary64 format, in exact
    arithmetic: twice the confidence is at least their sum, twice the
    risk score is at least their sum when the verdict is phishing and
    at most their sum when it is legitimate.  When they sum to one, the
    confidence is thus never below one half, and the risk score is on
    the side of one half that the verdict names. *)
Theorem run_inference_exact_values
    (lib : Libs) (g : Globals) (tok : Tokenizer) (m : Model)
    (txt : str) (inputs : Encoding) (logits : Tensor) (p0 p1 : float) :
  tokenizer g = Some tok ->
  model g = Some m ->
  tokenizer_call tok txt = inr inputs ->
  model_call m inputs = inr logits ->
  map (softmax lib) logits = [[p0; p1]] ->
  valid_binary prec emax p0 = true ->
  valid_binary prec emax p1 = true ->
  is_finite p0 = true ->
  is_finite p1 = true ->
  exists (is_phishing : bool) (confidence : float),
    _run_inference lib txt g = (inr (is_phishing, confidence, p1), g)
    /\ (value p0 + value p1 <= 2 * value confidence)%Q
    /\ (is_phishing = true -> (value p0 + value p1 <= 2 * value p1)%Q)
    /\ (is_phishing = false -> (2 * value p1 <= value p0 + value p1)%Q).
Proof.
  intros Htok Hm Hcall Hfwd Hsoft V0 V1 F0 F1.
  rewrite (run_inference_two_classes lib g _ Htok Hm Hcall Hfwd Hsoft).
  destruct (verdict_of_two p0 p1 (finite_not_nan p0 F0) (finite_not_nan p1 F1))
    as [_ [Hle0 Hle1]].
  exists (beats p1 p0), (if beats p1 p0 then p1 else p0).
  split; [reflexivity|].
  destruct (beats p1 p0).
  - pose proof (value_le p0 p1 V0 V1 F0 F1 Hle0) as H01.
    rewrite Qdouble.
    split; [|split]; intros; try discriminate;
      apply Qplus_le_compat; [exact H01 | apply Qle_refl | exact H01 | apply Qle_refl].
  - pose proof (value_le p1 p0 V1 V0 F1 F0 Hle1) as H10.
    rewrite !Qdouble.
    split; [|split]; intros; try discriminate.
    + apply Qplus_le_compat; [apply Qle_refl | exact H10].
    + apply Qplus_le_compat; [exact H10 | apply Qle_refl].
Qed.

Lemma run_inference_exact_values_witness :
  exists (is_phishing : bool) (confidence : float),
    _run_inference sample_lib (lit "URL: https://www.google.com") sample_loaded
    = (inr (is_phishing, confidence, f0_75), sample_loaded)
    /\ (value f0_25 + value f0_75 <= 2 * value confidence)%Q
    /\ (is_phishing = true -> (value f0_25 + value f0_75 <= 2 * value f0_75)%Q)
    /\ (is_phishing = false -> (2 * value f0_75 <= value f0_25 + value f0_75)%Q).
Proof.
  apply (@run_inference_exact_values sample_lib sample_loaded
           sample_tokenizer sample_model
           (lit "URL: https://www.google.com")
           [("input_ids"%string, [map Z.of_N (lit "URL: https://www.google.com")])]
           [[f0_25; f0_75]] f0_25 f0_75);
    reflexivity.
Defined.

(** ** Startup, then a request *)

(** X21: after a startup that succeeded, a request is answered by the
    tokenizer and the model that the startup loaded, and the details
    name the device chosen then: "cuda" when a GPU was available,
    "cpu" otherwise. *)
Theorem analyze_after_startup
    (lib : Libs) (g' : Globals) (request : PhishingAnalysisRequest)
    (tok : Tokenizer) (m : Model) (inputs : Encoding) (logits : Tensor)
    (p0 p1 : float) :
  load_model lib initial = (inr tt, g') ->
  tokenizer_from_pretrained lib model_name = inr tok ->
  model_from_pretrained lib model_name = inr m ->
  tokenizer_call tok (_prepare_text_for_analysis request) = inr inputs ->
  model_call m inputs = inr logits ->
  map (softmax lib) logits = [[p0; p1]] ->
  exists r : PhishingAnalysisResponse,
    analyze_phishing lib request g' = (inr r, g')
    /\ is_phishing r = beats p1 p0
    /\ risk_score r = p1
    /\ option_map details_device (details r)
       = Some (if cuda_is_available lib then lit "cuda" else lit "cpu").
Proof.
  intros Hload Htok Hm Hcall Hfwd Hsoft.
  destruct (load_model_success lib initial Hload) as [tok' [m' [Htok' [Hm' ->]]]].
  rewrite Htok in Htok'. injection Htok' as <-.
  rewrite Hm in Hm'. injection Hm' as <-.
  rewrite analyze_phishing_loaded by reflexivity.
  rewrite (@run_inference_two_classes lib
             {| model := Some m; tokenizer := Some tok;
                device := Some (if cuda_is_available lib then cuda else cpu) |}
             tok m _ inputs logits p0 p1 eq_refl eq_refl Hcall Hfwd Hsoft).
  eexists. split; [reflexivity|]. cbn.
  split; [reflexivity|]. split; [reflexivity|].
  destruct (cuda_is_available lib); reflexivity.
Qed.

Lemma analyze_after_startup_witness :
  exists r : PhishingAnalysisResponse,
    analyze_phishing sample_lib url_only_request sample_loaded = (inr r, sample_loaded)
    /\ is_phishing r = beats f0_75 f0_25
    /\ risk_score r = f0_75
    /\ option_map details_device (details r)
       = Some (if cuda_is_available sample_lib then lit "cuda" else lit "cpu").
Proof.
  apply (@analyze_after_startup sample_lib sample_loaded url_only_request
           sample_tokenizer sample_model
           [("input_ids"%string,
             [map Z.of_N (_prepare_text_for_analysis url_only_request)])]
           [[f0_25; f0_75]] f0_25 f0_75);
    reflexivity.
Defined.

(** ** The texts of the tensor errors *)

Example index_error_text :
  index [f0_75] 1
  = inl (IndexError (lit "index 1 is out of bounds for dimension 0 with size 1")).
Proof. reflexivity. Qed.

Example item_error_text :
  item [0; 1]
  = inl (RuntimeError (lit "a Tensor with 2 elements cannot be converted to Scalar")).
Proof. reflexivity. Qed.
